(** * PCFactory wholesale monitor: the classification pipeline

    A shallow embedding of [mayorista_monitor.py]: the row filters
    ([apply_xlsx_filters] with its inner [is_valid_pcf_id]), the catalog
    lookup client ([is_description_empty], [parse_stock_aproximado],
    [check_product_api], [check_products_batch]), the classifier
    ([classify_products]) and the control flow of [main].

    Text is modelled as lists of characters read as 7-bit ASCII (codes
    from 128 on are carried along but have no meaning of their own);
    Python exceptions are explicit results. A frame is the list of its
    rows, typed as [pd.read_csv] and [pd.read_excel] type it: the quantity
    column is numeric, possibly with missing cells, and the type of the
    creation-reason column follows from its cells. The catalog is what
    each request produced, and the thread pool, taken to have at least one
    worker, is the order in which the requests completed. Rendering the
    report is not modelled. *)

From Stdlib Require Import ZArith List Bool Ascii String Permutation Lia.
From Stdlib Require Import DecimalString.
Import ListNotations.
Open Scope Z_scope.

(** ** Python builtins used by the monitor *)

Module Py.

Definition str := list ascii.

Definition lit (s : string) : str := list_ascii_of_string s.

(** Exception classes that occur in the modelled code. [RequestException]
    stands for [requests.RequestException] and its subclasses,
    [OtherException] for any other subclass of [Exception]. *)
Inductive exn : Type :=
| ValueError
| TypeError
| OverflowError
| AttributeError
| RequestException
| OtherException.

Inductive res (A : Type) : Type :=
| Ok (a : A)
| Raise (e : exn).
Arguments Ok {A} a.
Arguments Raise {A} e.

Definition bind {A B : Type} (r : res A) (k : A -> res B) : res B :=
  match r with
  | Ok a => k a
  | Raise e => Raise e
  end.

Notation "x <- c1 ;; c2" := (bind c1 (fun x => c2))
  (at level 61, c1 at next level, right associativity).

Definition exn_eqb (a b : exn) : bool :=
  match a, b with
  | ValueError, ValueError | TypeError, TypeError
  | OverflowError, OverflowError | AttributeError, AttributeError
  | RequestException, RequestException
  | OtherException, OtherException => true
  | _, _ => false
  end.

(** [try: body except (classes): handler]. *)
Definition try_except {A : Type} (body : res A) (classes : list exn)
    (handler : res A) : res A :=
  match body with
  | Ok a => Ok a
  | Raise e => if existsb (exn_eqb e) classes then handler else Raise e
  end.

(** Evaluate a fallible function over a list, left to right; the first
    exception ends the traversal (as [Series.apply] does). *)
Fixpoint mapM {A B : Type} (f : A -> res B) (l : list A) : res (list B) :=
  match l with
  | [] => Ok []
  | a :: l' => b <- f a ;; bs <- mapM f l' ;; Ok (b :: bs)
  end.

(** *** Characters *)

Definition code (c : ascii) : N := N_of_ascii c.

(** [str.isspace] on one character: TAB..CR, FS..US and the space. *)
Definition is_space (c : ascii) : bool :=
  let n := code c in
  (((9 <=? n) && (n <=? 13)) || ((28 <=? n) && (n <=? 32)))%N.

Definition is_digit (c : ascii) : bool :=
  let n := code c in ((48 <=? n) && (n <=? 57))%N.

Definition digit_val (c : ascii) : Z := Z.of_N (code c) - 48.

Definition is_upper (c : ascii) : bool :=
  let n := code c in ((65 <=? n) && (n <=? 90))%N.

Definition to_lower (c : ascii) : ascii :=
  if is_upper c then ascii_of_N (code c + 32) else c.

Definition ch_eqb (a b : ascii) : bool := Ascii.eqb a b.

(** [isspace] of the C locale, which [int()] and [float()] use on ASCII
    text: TAB..CR and the space, without FS..US. *)
Definition is_cspace (c : ascii) : bool :=
  let n := code c in
  (((9 <=? n) && (n <=? 13)) || (n =? 32))%N.

(** *** [str] methods *)

Definition lower (s : str) : str := map to_lower s.

Fixpoint lstrip (s : str) : str :=
  match s with
  | [] => []
  | c :: r => if is_space c then lstrip r else s
  end.

Fixpoint rstrip (s : str) : str :=
  match s with
  | [] => []
  | c :: r =>
      match rstrip r with
      | [] => if is_space c then [] else [c]
      | r' => c :: r'
      end
  end.

Definition strip (s : str) : str := rstrip (lstrip s).

(** The trimming that [int()] and [float()] apply to their argument. *)
Fixpoint clstrip (s : str) : str :=
  match s with
  | [] => []
  | c :: r => if is_cspace c then clstrip r else s
  end.

Fixpoint crstrip (s : str) : str :=
  match s with
  | [] => []
  | c :: r =>
      match crstrip r with
      | [] => if is_cspace c then [] else [c]
      | r' => c :: r'
      end
  end.

Definition cstrip (s : str) : str := crstrip (clstrip s).

Fixpoint str_eqb (a b : str) : bool :=
  match a, b with
  | [], [] => true
  | x :: a', y :: b' => ch_eqb x y && str_eqb a' b'
  | _, _ => false
  end.

Fixpoint startswith (p s : str) : bool :=
  match p, s with
  | [], _ => true
  | x :: p', y :: s' => ch_eqb x y && startswith p' s'
  | _ :: _, [] => false
  end.

(** [p in s] for strings. *)
Fixpoint contains (p s : str) : bool :=
  startswith p s ||
  match s with
  | [] => false
  | _ :: s' => contains p s'
  end.

(** *** [int(text)] in base 10

    Surrounding whitespace is dropped, one sign is allowed, then come
    decimal digits with single underscores between digits. CPython refuses
    texts of more than [int_max_str_digits] digits with [ValueError]. *)

Definition int_max_str_digits : nat := 4300.

Fixpoint int_body (acc : Z) (count : nat) (after_us : bool) (s : str)
    : option (Z * nat) :=
  match s with
  | [] => if after_us then None else Some (acc, count)
  | c :: r =>
      if ch_eqb c "_" then
        if after_us then None else int_body acc count true r
      else if is_digit c then
        int_body (10 * acc + digit_val c) (S count) false r
      else None
  end.

Definition int_digits (s : str) : option (Z * nat) :=
  match s with
  | [] => None
  | c :: _ => if ch_eqb c "_" then None else int_body 0 0 false s
  end.

Definition split_sign (s : str) : bool * str :=
  match s with
  | c :: r =>
      if ch_eqb c "-" then (true, r)
      else if ch_eqb c "+" then (false, r)
      else (false, s)
  | [] => (false, [])
  end.

Definition int_of_str (s : str) : res Z :=
  let '(neg, body) := split_sign (cstrip s) in
  match int_digits body with
  | Some (n, count) =>
      if (int_max_str_digits <? count)%nat then Raise ValueError
      else Ok (if neg then - n else n)
  | None => Raise ValueError
  end.

(** *** [float(text)] and [int(float)]

    A float is not-a-number, an infinity, or a finite binary64 value
    [mant * 2^exp2] with sign [neg]. *)

Inductive pyfloat : Type :=
| FNan
| FInf (neg : bool)
| FFin (neg : bool) (mant : Z) (exp2 : Z).

(** The nearest binary64 value to [n / d] ([0 <= n], [0 < d]), ties to
    even; magnitudes that round to [2^1024] or more become infinite. *)
Definition round_ratio (neg : bool) (n d : Z) : pyfloat :=
  if n =? 0 then FFin neg 0 0 else
  let k0 := Z.log2 n - Z.log2 d - 53 in
  let q0 := if 0 <=? k0 then n / (d * 2 ^ k0) else (n * 2 ^ (- k0)) / d in
  let k1 := if 2 ^ 53 <=? q0 then k0 + 1 else k0 in
  let k := Z.max k1 (-1074) in
  let num := if 0 <=? k then n else n * 2 ^ (- k) in
  let den := if 0 <=? k then d * 2 ^ k else d in
  let q := num / den in
  let r := num mod den in
  let q' := if 2 * r <? den then q
            else if den <? 2 * r then q + 1
            else q + q mod 2 in
  if (971 <? k) || ((k =? 971) && (q' =? 2 ^ 53)) then FInf neg
  else FFin neg q' k.

(** The correctly rounded value of [m * 10^e10]. *)
Definition round_decimal (neg : bool) (m e10 : Z) : pyfloat :=
  if 0 <=? e10 then round_ratio neg (m * 10 ^ e10) 1
  else round_ratio neg m (10 ^ (- e10)).

(** Leading decimal digits: accumulated value, how many, and the rest. *)
Fixpoint take_digits (acc count : Z) (s : str) : Z * Z * str :=
  match s with
  | c :: r =>
      if is_digit c then take_digits (10 * acc + digit_val c) (count + 1) r
      else (acc, count, s)
  | [] => (acc, count, [])
  end.

(** Underscores are accepted only between two digits, and are dropped. *)
Fixpoint drop_underscores (prev : ascii) (s : str) : option str :=
  match s with
  | [] => if ch_eqb prev "_" then None else Some []
  | c :: r =>
      if ch_eqb c "_" then
        if is_digit prev then drop_underscores c r else None
      else if ch_eqb prev "_" && negb (is_digit c) then None
      else option_map (cons c) (drop_underscores c r)
  end.

(** The float grammar on trimmed, lower-case text without underscores:
    a sign, then [inf], [infinity], [nan], or digits with an optional
    point and an optional exponent. *)
Definition float_grammar (u : str) : option pyfloat :=
  let '(neg, body) := split_sign u in
  if str_eqb body (lit "inf") || str_eqb body (lit "infinity") then
    Some (FInf neg)
  else if str_eqb body (lit "nan") then Some FNan
  else
    let '(ip, ni, r1) := take_digits 0 0 body in
    let '(m, nf, r2) :=
      match r1 with
      | c :: r => if ch_eqb c "." then take_digits ip 0 r else (ip, 0, r1)
      | [] => (ip, 0, r1)
      end in
    if ni + nf =? 0 then None
    else
      match r2 with
      | [] => Some (round_decimal neg m (- nf))
      | c :: r3 =>
          if ch_eqb c "e" then
            let '(eneg, r4) := split_sign r3 in
            let '(ev, ne, r5) := take_digits 0 0 r4 in
            if ne =? 0 then None
            else
              match r5 with
              | [] => Some (round_decimal neg m
                              ((if eneg then - ev else ev) - nf))
              | _ :: _ => None
              end
          else None
      end.

(** [float(text)]: case is irrelevant to the builtin, so the text is put
    in lower case before it is matched. *)
Definition float_of_str (s : str) : res pyfloat :=
  match drop_underscores "000" (lower (cstrip s)) with
  | None => Raise ValueError
  | Some u =>
      match float_grammar u with
      | Some f => Ok f
      | None => Raise ValueError
      end
  end.

(** [int(x)] for a float [x]: truncation toward zero; [ValueError] on
    not-a-number, [OverflowError] on an infinity. *)
Definition int_of_float (f : pyfloat) : res Z :=
  match f with
  | FNan => Raise ValueError
  | FInf _ => Raise OverflowError
  | FFin neg m e =>
      let a := if 0 <=? e then m * 2 ^ e else m / 2 ^ (- e) in
      Ok (if neg then - a else a)
  end.

Definition is_zero (f : pyfloat) : bool :=
  match f with
  | FFin _ m _ => m =? 0
  | _ => false
  end.

(** *** Values

    The monitor observes a cell of the sheet or a field of a JSON reply
    only through [is None], [pd.isna], [is True], truth value and [str()].
    [PyNum] is an [int] or a [float] other than NaN, given by its [str()]
    text (for a [float], [float(str(x)) == x]); [PyObj] is any other
    object, given by its truth value and its [str()] text. *)

Inductive pyval : Type :=
| PyNone
| PyNaN
| PyBool (b : bool)
| PyNum (text : str)
| PyStr (s : str)
| PyObj (truth : bool) (text : str).

Definition py_str (v : pyval) : str :=
  match v with
  | PyNone => lit "None"
  | PyNaN => lit "nan"
  | PyBool true => lit "True"
  | PyBool false => lit "False"
  | PyNum t => t
  | PyStr s => s
  | PyObj _ t => t
  end.

Definition is_empty (s : str) : bool :=
  match s with
  | [] => true
  | _ :: _ => false
  end.

Definition truthy (v : pyval) : bool :=
  match v with
  | PyNone => false
  | PyNaN => true
  | PyBool b => b
  | PyNum t =>
      match float_of_str t with
      | Ok f => negb (is_zero f)
      | Raise _ => true
      end
  | PyStr s => negb (is_empty s)
  | PyObj b _ => b
  end.

Definition pd_isna (v : pyval) : bool :=
  match v with
  | PyNone | PyNaN => true
  | _ => false
  end.

Definition is_True (v : pyval) : bool :=
  match v with
  | PyBool true => true
  | _ => false
  end.

(** [float(v)] on a value. For an [int] too large for a float the builtin
    raises [OverflowError] at once, where the text gives an infinity on
    which [int()] raises the same class; the monitor only ever evaluates
    [int(float(v))]. *)
Definition py_float (v : pyval) : res pyfloat :=
  match v with
  | PyNone => Raise TypeError
  | PyNaN => Ok FNan
  | PyBool b => Ok (round_ratio false (if b then 1 else 0) 1)
  | PyNum t => float_of_str t
  | PyStr s => float_of_str s
  | PyObj _ _ => Raise TypeError
  end.

End Py.

Import Py.

(** ** The price file *)

(** One row of the sheet. [COL_AVAILABLE_QTY] is a numeric column ([None]
    is a missing cell); the other cells are arbitrary values. *)
Record row : Type := mkRow {
  COL_PCF_ID : pyval;
  COL_INGRAM_PART : pyval;
  COL_DESCRIPTION : pyval;
  COL_VENDOR_NAME : pyval;
  COL_VENDOR_PART : pyval;
  COL_CUSTOMER_PRICE : pyval;
  COL_AVAILABLE_QTY : option Z;
  COL_CREATION_REASON : pyval;
  COL_CATEGORY : pyval;
  COL_SUBCATEGORY : pyval
}.

Definition DataFrame := list row.

(** [series.fillna(0)] on one cell. *)
Definition fillna0 (q : option Z) : Z :=
  match q with
  | Some z => z
  | None => 0
  end.

(** [series.str.contains(pat, case=False, na=False)] on one cell: cells
    that are not text give the [na] value. *)
Definition str_contains_nocase (pat : str) (v : pyval) : bool :=
  match v with
  | PyStr s => contains (lower pat) (lower s)
  | _ => false
  end.

(** The classes of cell other than text and missing. An object that is
    neither a number nor a boolean is a date or a time, which only an Excel
    file yields; such cells of one column are taken to be of one class. *)
Definition is_number_cell (v : pyval) : bool :=
  match v with
  | PyNum _ => true
  | _ => false
  end.

Definition is_bool_cell (v : pyval) : bool :=
  match v with
  | PyBool _ => true
  | _ => false
  end.

Definition is_date_cell (v : pyval) : bool :=
  match v with
  | PyObj _ _ => true
  | _ => false
  end.

Definition no_cells (cells : list pyval) : bool :=
  match cells with
  | [] => true
  | _ :: _ => false
  end.

(** Whether [pd.read_csv] and [pd.read_excel] give the column a type of
    its own rather than [object]: a column of a frame with rows whose
    cells are all numbers or blank is [float64] or [int64] (so is a column
    that is blank throughout), one of booleans only is [bool], one of dates
    or blanks is [datetime64]. A column with a text cell, and every column
    of a frame without rows, is [object]. *)
Definition typed_column (cells : list pyval) : bool :=
  negb (no_cells cells)
  && (forallb (fun v => pd_isna v || is_number_cell v) cells
      || forallb is_bool_cell cells
      || forallb (fun v => pd_isna v || is_date_cell v) cells).

(** Values of one class that is not text. *)
Definition same_class (vs : list pyval) : bool :=
  forallb is_number_cell vs || forallb is_bool_cell vs
  || forallb is_date_cell vs.

(** [series.str], for the column [series] of a selection of the rows of a
    frame; [cells] is the column in the frame, [selected] in the selection,
    which keeps the type of the column. The accessor is refused with
    [AttributeError] unless the values are text, mixed or, in an [object]
    column, all missing: it is refused on a typed column, and on values
    other than missing ones that are all numbers, all booleans or all
    dates. *)
Definition str_accessor (cells selected : list pyval) : res unit :=
  let values := filter (fun v => negb (pd_isna v)) selected in
  if typed_column cells || (negb (no_cells values) && same_class values)
  then Raise AttributeError
  else Ok tt.

(** [frame[mask]] for a boolean mask aligned with the frame. *)
Definition select {A : Type} (mask : list bool) (l : list A) : list A :=
  map snd (filter fst (combine mask l)).

(** ** Row filters *)

Definition sentinels : list str :=
  [lit "sin id"; lit "n/a"; lit "na"; lit "-"; lit "none"].

Definition is_valid_pcf_id (val : pyval) : res bool :=
  if pd_isna val || is_empty (strip (py_str val)) then Ok false
  else
    let s := lower (strip (py_str val)) in
    if existsb (str_eqb s) sentinels then Ok false
    else
      try_except
        (f <- float_of_str s ;; _ <- int_of_float f ;; Ok true)
        [ValueError; TypeError]
        (Ok false).

Definition stocked (r : row) : bool := 0 <? fillna0 (COL_AVAILABLE_QTY r).

Definition is_clearance (r : row) : bool :=
  str_contains_nocase (lit "CLEARANCE") (COL_CREATION_REASON r).

Definition has_stock_of (df : DataFrame) : DataFrame := filter stocked df.

Definition clearance_products_of (df : DataFrame) : DataFrame :=
  filter is_clearance (has_stock_of df).

Definition eligible_xlsx_of (df : DataFrame) : DataFrame :=
  filter (fun r => negb (is_clearance r)) (has_stock_of df).

Definition sin_stock_df_of (df : DataFrame) : DataFrame :=
  filter (fun r => fillna0 (COL_AVAILABLE_QTY r) <=? 0) df.

Record xlsx_stats : Type := mkStats {
  total : Z;
  sin_stock_ingram : Z;
  has_stock : DataFrame;
  sin_stock_df : DataFrame;
  clearance : Z;
  clearance_products : DataFrame;
  eligible_xlsx : DataFrame;
  has_pcf_id : DataFrame;
  no_pcf_id : DataFrame
}.

Definition len {A : Type} (l : list A) : Z := Z.of_nat (List.length l).

(** [apply_xlsx_filters]. The clearance test reads the creation reasons
    of the stocked rows through [.str], before any identifier is
    examined. *)
Definition apply_xlsx_filters (df : DataFrame) : res xlsx_stats :=
  let total := len df in
  let has_stock := has_stock_of df in
  let sin_stock := total - len has_stock in
  _ <- str_accessor (map COL_CREATION_REASON df)
         (map COL_CREATION_REASON has_stock) ;;
  let clearance_products := clearance_products_of df in
  let eligible_xlsx := eligible_xlsx_of df in
  mask_valid_id <- mapM is_valid_pcf_id (map COL_PCF_ID eligible_xlsx) ;;
  let has_pcf_id := select mask_valid_id eligible_xlsx in
  let no_pcf_id := select (map negb mask_valid_id) eligible_xlsx in
  let sin_stock_df := sin_stock_df_of df in
  Ok {| total := total;
        sin_stock_ingram := sin_stock;
        has_stock := has_stock;
        sin_stock_df := sin_stock_df;
        clearance := len clearance_products;
        clearance_products := clearance_products;
        eligible_xlsx := eligible_xlsx;
        has_pcf_id := has_pcf_id;
        no_pcf_id := no_pcf_id |}.

(** ** Catalog lookup client *)

(** The text up to the first [">"], and the text after it. *)
Fixpoint until_gt (s : str) : option (str * str) :=
  match s with
  | [] => None
  | c :: r =>
      if ch_eqb c ">" then Some ([], r)
      else
        match until_gt r with
        | Some (b, a) => Some (c :: b, a)
        | None => None
        end
  end.

(** [re.sub(r'<[^>]+>', '', s)]: scanning from the left, a ["<"] followed
    by at least one character other than [">"] and then a [">"] is removed
    together with what it encloses; [skip] counts the characters of a match
    still to be dropped. *)
Fixpoint sub_tags_from (skip : nat) (s : str) : str :=
  match s with
  | [] => []
  | c :: r =>
      match skip with
      | S k => sub_tags_from k r
      | O =>
          if ch_eqb c "<" then
            match until_gt r with
            | Some (b, _) =>
                if is_empty b then c :: sub_tags_from 0 r
                else sub_tags_from (S (List.length b)) r
            | None => c :: sub_tags_from 0 r
            end
          else c :: sub_tags_from 0 r
      end
  end.

Definition sub_tags (s : str) : str := sub_tags_from 0 s.

Definition is_description_empty (description : pyval) : bool :=
  if negb (truthy description) then true
  else
    let s := strip (py_str description) in
    if is_empty s then true
    else
      let text_only := strip (sub_tags s) in
      len text_only <? 20.

(** The ["stock"] field of a reply: a dict, of which only the key
    ["aproximado"] is read ([None] when the key is absent), or any other
    value. *)
Inductive stock_field : Type :=
| StockDict (aproximado : option pyval)
| StockVal (v : pyval).

(** [stock_data.get("aproximado", "0")] on a dict, [str(stock_data)]
    otherwise. *)
Definition stock_raw_of (stock_data : stock_field) : pyval :=
  match stock_data with
  | StockDict (Some v) => v
  | StockDict None => PyStr (lit "0")
  | StockVal v => PyStr (py_str v)
  end.

Definition parse_stock_aproximado (stock_data : stock_field) : res Z :=
  match stock_data with
  | StockVal PyNone => Ok 0
  | _ =>
      let aprox := strip (py_str (stock_raw_of stock_data)) in
      if startswith (lit "+") aprox then
        try_except (int_of_str (tl aprox)) [ValueError] (Ok 0)
      else
        try_except (int_of_str aprox) [ValueError] (Ok 0)
  end.

Inductive api_status_t : Type :=
| status_ok
| status_not_found
| status_error.

(** A lookup result. [None] in [stock_pcf] and [ficha_vacia], and [PyNone]
    in [mayorista], are Python's [None]. *)
Record api_result : Type := mkApi {
  api_status : api_status_t;
  mayorista : pyval;
  stock_pcf : option Z;
  stock_raw : pyval;
  nombre_pcf : pyval;
  precio_normal : pyval;
  precio_oferta : pyval;
  ficha_vacia : option bool;
  error : str
}.

(** The JSON object of a reply, by the keys the client reads; [None] is an
    absent key. *)
Record payload : Type := mkPayload {
  p_mayorista : option pyval;
  p_stock : option stock_field;
  p_nombre : option pyval;
  p_precioNormal : option pyval;
  p_precioOferta : option pyval;
  p_descripcion : option pyval
}.

(** [resp.json()] and the reads of the object: they give the payload, or
    raise (a body that is not JSON, or JSON that is not an object). *)
Inductive body : Type :=
| JsonObject (data : payload)
| JsonFails (e : exn) (msg : str).

(** What [session.get] does after its retries: a response, or an
    exception with its text. *)
Inductive http_outcome : Type :=
| Response (status_code : Z) (b : body)
| GetRaises (e : exn) (msg : str).

(** A call either returns or raises an exception with its [str(e)]. *)
Inductive outcome (A : Type) : Type :=
| Returned (a : A)
| Raised (e : exn) (msg : str).
Arguments Returned {A} a.
Arguments Raised {A} e msg.

Definition get {A : Type} (field : option A) (default : A) : A :=
  match field with
  | Some v => v
  | None => default
  end.

(** [resp.ok]: the status is not a 4xx or 5xx. *)
Definition resp_ok (status_code : Z) : bool :=
  negb ((400 <=? status_code) && (status_code <? 600)).

Definition str_of_Z (z : Z) : str :=
  list_ascii_of_string (NilZero.string_of_int (Z.to_int z)).

Definition error_result (msg : str) : api_result :=
  {| api_status := status_error;
     mayorista := PyNone;
     stock_pcf := None;
     stock_raw := PyStr [];
     nombre_pcf := PyStr [];
     precio_normal := PyNum (lit "0");
     precio_oferta := PyNum (lit "0");
     ficha_vacia := None;
     error := msg |}.

Definition not_found_result : api_result :=
  {| api_status := status_not_found;
     mayorista := PyBool false;
     stock_pcf := Some 0;
     stock_raw := PyStr (lit "0");
     nombre_pcf := PyStr [];
     precio_normal := PyNum (lit "0");
     precio_oferta := PyNum (lit "0");
     ficha_vacia := Some true;
     error := [] |}.

(** [except requests.RequestException as e] around the body of
    [check_product_api]. *)
Definition except_request (e : exn) (msg : str) : outcome api_result :=
  match e with
  | RequestException => Returned (error_result msg)
  | _ => Raised e msg
  end.

(** [check_product_api], as a function of what the request produced. The
    pauses (the polite pause, the wait on [Retry-After]) do not change the
    result. *)
Definition check_product_api (http : http_outcome) : outcome api_result :=
  match http with
  | GetRaises e msg => except_request e msg
  | Response status_code b =>
      if resp_ok status_code then
        match b with
        | JsonFails e msg => except_request e msg
        | JsonObject data =>
            let mayorista := get (p_mayorista data) (PyBool false) in
            let stock_data := get (p_stock data) (StockDict None) in
            match parse_stock_aproximado stock_data with
            | Raise e => except_request e []
            | Ok stock_aprox =>
                let description_pcf := get (p_descripcion data) (PyStr []) in
                Returned
                  {| api_status := status_ok;
                     mayorista := mayorista;
                     stock_pcf := Some stock_aprox;
                     stock_raw := stock_raw_of stock_data;
                     nombre_pcf := get (p_nombre data) (PyStr []);
                     precio_normal := get (p_precioNormal data) (PyNum (lit "0"));
                     precio_oferta := get (p_precioOferta data) (PyNum (lit "0"));
                     ficha_vacia := Some (is_description_empty description_pcf);
                     error := [] |}
            end
        end
      else if status_code =? 404 then Returned not_found_result
      else Returned (error_result (lit "HTTP " ++ str_of_Z status_code))
  end.

(** A row joined with its lookup result. The Python dict copies the
    row's cells under new keys; here the row is kept whole. *)
Record item : Type := mkItem {
  pcf_id : Z;
  item_row : row;
  api : api_result
}.

(** [future.result()] under [except Exception]. *)
Definition result_of (call : outcome api_result) : api_result :=
  match call with
  | Returned r => r
  | Raised _ msg => error_result msg
  end.

(** The first loop of [check_products_batch]: a row whose identifier does
    not convert is skipped on [ValueError] and [TypeError]. *)
Fixpoint batch_tasks (rows : DataFrame) : res (list (Z * row)) :=
  match rows with
  | [] => Ok []
  | r :: rows' =>
      conv <- try_except
                (f <- py_float (COL_PCF_ID r) ;;
                 pcf_id_int <- int_of_float f ;;
                 Ok (Some pcf_id_int))
                [ValueError; TypeError]
                (Ok None) ;;
      tasks <- batch_tasks rows' ;;
      Ok match conv with
         | Some pcf_id_int => (pcf_id_int, r) :: tasks
         | None => tasks
         end
  end.

(** [check_products_batch]. [https] gives, for each submitted task in
    submission order, what its request produced; [completion] lists the
    task indices in the order in which [as_completed] yields the futures.
    The pool is taken to have at least one worker, as with the default
    [--workers 5]: with [max_workers] at most 0 the constructor of
    [ThreadPoolExecutor] raises [ValueError] once the tasks are built,
    which is not modelled. *)
Definition check_products_batch (df_with_ids : DataFrame)
    (https : list http_outcome) (completion : list nat) : res (list item) :=
  tasks <- batch_tasks df_with_ids ;;
  Ok (flat_map
        (fun i =>
           match nth_error tasks i, nth_error https i with
           | Some (pid, r), Some http =>
               [{| pcf_id := pid;
                   item_row := r;
                   api := result_of (check_product_api http) |}]
           | _, _ => []
           end)
        completion).

(** ** Classifier *)

(** An element of a bucket: a looked-up item, or a row that was not looked
    up, with the identifier recorded for it ([None] is Python's [None]). *)
Inductive entry : Type :=
| Checked (it : item)
| Unchecked (pid : option Z) (r : row).

Record classification : Type := mkClass {
  publish_ready : list entry;
  missing_ficha : list entry;
  need_creation : list entry;
  already_mayorista : list entry;
  has_pcf_stock : list entry;
  api_errors : list entry
}.

Definition empty_class : classification :=
  {| publish_ready := []; missing_ficha := []; need_creation := [];
     already_mayorista := []; has_pcf_stock := []; api_errors := [] |}.

Definition append {A : Type} (l : list A) (x : A) : list A := l ++ [x].

Definition add_publish_ready (c : classification) (e : entry) :=
  {| publish_ready := append (publish_ready c) e;
     missing_ficha := missing_ficha c;
     need_creation := need_creation c;
     already_mayorista := already_mayorista c;
     has_pcf_stock := has_pcf_stock c;
     api_errors := api_errors c |}.

Definition add_missing_ficha (c : classification) (e : entry) :=
  {| publish_ready := publish_ready c;
     missing_ficha := append (missing_ficha c) e;
     need_creation := need_creation c;
     already_mayorista := already_mayorista c;
     has_pcf_stock := has_pcf_stock c;
     api_errors := api_errors c |}.

Definition add_need_creation (c : classification) (e : entry) :=
  {| publish_ready := publish_ready c;
     missing_ficha := missing_ficha c;
     need_creation := append (need_creation c) e;
     already_mayorista := already_mayorista c;
     has_pcf_stock := has_pcf_stock c;
     api_errors := api_errors c |}.

Definition add_already_mayorista (c : classification) (e : entry) :=
  {| publish_ready := publish_ready c;
     missing_ficha := missing_ficha c;
     need_creation := need_creation c;
     already_mayorista := append (already_mayorista c) e;
     has_pcf_stock := has_pcf_stock c;
     api_errors := api_errors c |}.

Definition add_has_pcf_stock (c : classification) (e : entry) :=
  {| publish_ready := publish_ready c;
     missing_ficha := missing_ficha c;
     need_creation := need_creation c;
     already_mayorista := already_mayorista c;
     has_pcf_stock := append (has_pcf_stock c) e;
     api_errors := api_errors c |}.

Definition add_api_errors (c : classification) (e : entry) :=
  {| publish_ready := publish_ready c;
     missing_ficha := missing_ficha c;
     need_creation := need_creation c;
     already_mayorista := already_mayorista c;
     has_pcf_stock := has_pcf_stock c;
     api_errors := append (api_errors c) e |}.

Definition is_status_error (s : api_status_t) : bool :=
  match s with status_error => true | _ => false end.

Definition is_status_not_found (s : api_status_t) : bool :=
  match s with status_not_found => true | _ => false end.

(** [stock_pcf is not None and stock_pcf > 0]. *)
Definition stock_positive (stock : option Z) : bool :=
  match stock with
  | Some z => 0 <? z
  | None => false
  end.

(** The truth value of [item.get("ficha_vacia", False)]. *)
Definition ficha_flag (f : option bool) : bool :=
  match f with
  | Some b => b
  | None => false
  end.

(** One turn of the first loop of [classify_products]. *)
Definition classify_item (c : classification) (it : item) : classification :=
  let a := api it in
  if is_status_error (api_status a) then add_api_errors c (Checked it)
  else if is_status_not_found (api_status a) then
    add_need_creation c (Checked it)
  else if is_True (mayorista a) then add_already_mayorista c (Checked it)
  else if stock_positive (stock_pcf a) then add_has_pcf_stock c (Checked it)
  else if ficha_flag (ficha_vacia a) then add_missing_ficha c (Checked it)
  else add_publish_ready c (Checked it).

Definition classify_products (api_results : list item)
    (df_no_pcf_id : DataFrame) : classification :=
  let c := fold_left classify_item api_results empty_class in
  fold_left (fun c r => add_need_creation c (Unchecked None r))
    df_no_pcf_id c.

(** ** The run *)

Inductive source_t : Type :=
| gsheet
| local.

Record args_t : Type := mkArgs {
  source : source_t;
  sheet_id : str;
  skip_api : bool
}.

(** What the run finds outside: the outcome of reading the sheet, the
    newest price file if there is one, the outcome of reading it, and the
    behaviour of the catalog (see [check_products_batch]). *)
Record world : Type := mkWorld {
  read_google_sheet : res DataFrame;
  find_latest_price_file : option str;
  read_price_file : res DataFrame;
  https : list http_outcome;
  completion : list nat
}.

(** What the report is rendered from: [xlsx_stats] as the renderer reads
    it, where an absent frame reads as an empty one. *)
Record report_stats : Type := mkReport {
  r_total : Z;
  r_sin_stock_ingram : Z;
  r_clearance : Z;
  r_clearance_products : DataFrame;
  r_has_stock : DataFrame;
  r_sin_stock_df : DataFrame
}.

Definition empty_stats : report_stats :=
  {| r_total := 0; r_sin_stock_ingram := 0; r_clearance := 0;
     r_clearance_products := []; r_has_stock := []; r_sin_stock_df := [] |}.

Definition report_of (st : xlsx_stats) : report_stats :=
  {| r_total := total st;
     r_sin_stock_ingram := sin_stock_ingram st;
     r_clearance := clearance st;
     r_clearance_products := clearance_products st;
     r_has_stock := has_stock st;
     r_sin_stock_df := sin_stock_df st |}.

(** Files written to the output directory. Rendering is not modelled:
    a file is given by what it is rendered from, and
    [generate_html_dashboard] is taken to return (it raises [TypeError]
    when it sorts or slices bucket entries whose vendor name or
    description is not a text). *)
Inductive artifact : Type :=
| mayorista_html (st : report_stats) (c : classification) (price_file_name : str)
| mayorista_report_json (st : report_stats) (c : classification)
    (price_file_name : str).

(** A run: the files written, in order, and how the process ends
    ([Ok tt] is a normal return of [main]). *)
Record run : Type := mkRun {
  written : list artifact;
  exit : res unit
}.

Definition crashed (e : exn) : run := {| written := []; exit := Raise e |}.

Definition empty_dashboard (title : str) : run :=
  {| written := [mayorista_html empty_stats empty_class title];
     exit := Ok tt |}.

(** [pd.notna(v)]. *)
Definition pd_notna (v : pyval) : bool := negb (pd_isna v).

(** The branch of [main] that runs without the catalog. *)
Fixpoint publish_unchecked (rows : DataFrame) : res (list entry) :=
  match rows with
  | [] => Ok []
  | r :: rows' =>
      pid <- (if pd_notna (COL_PCF_ID r) then
                f <- py_float (COL_PCF_ID r) ;;
                z <- int_of_float f ;;
                Ok (Some z)
              else Ok None) ;;
      es <- publish_unchecked rows' ;;
      Ok (Unchecked pid r :: es)
  end.

Definition classify_run (a : args_t) (w : world) (st : xlsx_stats)
    : res classification :=
  if negb (skip_api a) && (0 <? len (has_pcf_id st)) then
    api_results <- check_products_batch (has_pcf_id st) (https w)
                     (completion w) ;;
    Ok (classify_products api_results (no_pcf_id st))
  else
    ready <- publish_unchecked (has_pcf_id st) ;;
    Ok {| publish_ready := ready;
          missing_ficha := [];
          need_creation := map (Unchecked None) (no_pcf_id st);
          already_mayorista := [];
          has_pcf_stock := [];
          api_errors := [] |}.

(** Steps 3 to 7 of [main], once the frame is read; the two files are
    written when the filters and the classification return and rendering
    succeeds. *)
Definition report_run (a : args_t) (w : world) (df : DataFrame)
    (price_file_name : str) : run :=
  match apply_xlsx_filters df with
  | Raise e => crashed e
  | Ok st =>
      match classify_run a w st with
      | Raise e => crashed e
      | Ok c =>
          {| written := [mayorista_html (report_of st) c price_file_name;
                         mayorista_report_json (report_of st) c
                           price_file_name];
             exit := Ok tt |}
      end
  end.

(** [Path(price_file).name]: the text after the last ["/"]. *)
Fixpoint basename (path : str) : str :=
  match path with
  | [] => []
  | c :: r => if existsb (ch_eqb "/") r then basename r
              else if ch_eqb c "/" then r else path
  end.

Definition main (a : args_t) (w : world) : run :=
  match source a with
  | gsheet =>
      match read_google_sheet w with
      | Raise _ => empty_dashboard (lit "Error al leer Google Sheet")
      | Ok df =>
          report_run a w df
            (lit "Google Sheet (" ++ firstn 8 (sheet_id a) ++ lit "...)")
      end
  | local =>
      match find_latest_price_file w with
      | None => empty_dashboard (lit "No encontrado")
      | Some price_file =>
          match read_price_file w with
          | Raise e => crashed e
          | Ok df => report_run a w df (basename price_file)
          end
      end
  end.

(** ** Definitions used to state the properties *)

(** The six buckets a looked-up candidate can land in. *)
Inductive bucket : Type :=
| lookup_errors
| needs_creation
| already_published
| has_own_stock
| missing_description
| publish_ready_bucket.

Definition bucket_eqb (a b : bucket) : bool :=
  match a, b with
  | lookup_errors, lookup_errors
  | needs_creation, needs_creation
  | already_published, already_published
  | has_own_stock, has_own_stock
  | missing_description, missing_description
  | publish_ready_bucket, publish_ready_bucket => true
  | _, _ => false
  end.

(** The decision order as the specification words it: the lookup outcome
    first, then the visibility flag, then a known positive stock, then the
    description. *)
Definition bucket_of (a : api_result) : bucket :=
  match api_status a with
  | status_error => lookup_errors
  | status_not_found => needs_creation
  | status_ok =>
      match mayorista a with
      | PyBool true => already_published
      | _ =>
          match stock_pcf a with
          | Some (Z.pos _) => has_own_stock
          | _ =>
              match ficha_vacia a with
              | Some true => missing_description
              | _ => publish_ready_bucket
              end
          end
      end
  end.

(** The candidates of one bucket, in encounter order. *)
Definition bucket_items (b : bucket) (l : list item) : list entry :=
  map Checked (filter (fun it => bucket_eqb (bucket_of (api it)) b) l).

(** The state of the loop after it has gone through [l] from [c]. *)
Definition after (c : classification) (l : list item) : classification :=
  {| publish_ready := publish_ready c ++ bucket_items publish_ready_bucket l;
     missing_ficha := missing_ficha c ++ bucket_items missing_description l;
     need_creation := need_creation c ++ bucket_items needs_creation l;
     already_mayorista :=
       already_mayorista c ++ bucket_items already_published l;
     has_pcf_stock := has_pcf_stock c ++ bucket_items has_own_stock l;
     api_errors := api_errors c ++ bucket_items lookup_errors l |}.

(** [int(float(text))]. *)
Definition int_float (s : str) : res Z :=
  f <- float_of_str s ;; int_of_float f.

(** The condition of the specification on a cell: present, not blank once
    trimmed, not a sentinel token whatever its case, and the trimmed text
    parses as a float that truncates to an integer. *)
Definition well_formed (val : pyval) : Prop :=
  pd_isna val = false /\
  strip (py_str val) <> [] /\
  ~ In (lower (strip (py_str val))) sentinels /\
  exists z, int_float (strip (py_str val)) = Ok z.

(** A stocked row outside clearance whose identifier reads as an infinite
    float; the other cells are arbitrary. *)
Definition infinite_id_row : row :=
  {| COL_PCF_ID := PyStr (lit "inf");
     COL_INGRAM_PART := PyStr (lit "AB123");
     COL_DESCRIPTION := PyStr (lit "USB cable");
     COL_VENDOR_NAME := PyStr (lit "ACME");
     COL_VENDOR_PART := PyStr (lit "X-1");
     COL_CUSTOMER_PRICE := PyNum (lit "1990");
     COL_AVAILABLE_QTY := Some 5;
     COL_CREATION_REASON := PyStr (lit "NEW");
     COL_CATEGORY := PyStr (lit "Cables");
     COL_SUBCATEGORY := PyStr (lit "USB") |}.

(** A stocked row whose creation reason is a missing cell. *)
Definition untagged_row : row :=
  {| COL_PCF_ID := PyStr (lit "123");
     COL_INGRAM_PART := PyStr (lit "AB123");
     COL_DESCRIPTION := PyStr (lit "USB cable");
     COL_VENDOR_NAME := PyStr (lit "ACME");
     COL_VENDOR_PART := PyStr (lit "X-1");
     COL_CUSTOMER_PRICE := PyNum (lit "1990");
     COL_AVAILABLE_QTY := Some 5;
     COL_CREATION_REASON := PyNaN;
     COL_CATEGORY := PyStr (lit "Cables");
     COL_SUBCATEGORY := PyStr (lit "USB") |}.

(** The plain text of a description, as the code measures it: the trimmed
    text with the markup removed, trimmed again. *)
Definition plain_text (s : str) : str := strip (sub_tags (strip s)).

(** A text of decimal digits only. *)
Definition all_digits (ds : str) : bool := forallb is_digit ds.

(** The number a digit text denotes. *)
Definition decimal (ds : str) : Z :=
  fold_left (fun acc c => 10 * acc + digit_val c) ds 0.


(** [int(float(pcf_id))] on the cell as it stands in the frame. *)
Definition convert (val : pyval) : res Z :=
  f <- py_float val ;; int_of_float f.

(** The result the batch records for a task and what its request
    produced. *)
Definition joined (task : Z * row) (http : http_outcome) : item :=
  {| pcf_id := fst task;
     item_row := snd task;
     api := result_of (check_product_api http) |}.

(** The body of the second loop of [check_products_batch] for the future
    of task [i]. *)
Definition lookup_at (tasks : list (Z * row)) (https : list http_outcome)
    (i : nat) : list item :=
  match nth_error tasks i, nth_error https i with
  | Some (pid, r), Some http =>
      [{| pcf_id := pid; item_row := r;
          api := result_of (check_product_api http) |}]
  | _, _ => []
  end.

(** A stocked row outside clearance whose identifier is "123" followed by
    the control character US (code 31). *)
Definition us_padded_row : row :=
  {| COL_PCF_ID := PyStr (lit "123" ++ ["031"%char]);
     COL_INGRAM_PART := PyStr (lit "AB123");
     COL_DESCRIPTION := PyStr (lit "USB cable");
     COL_VENDOR_NAME := PyStr (lit "ACME");
     COL_VENDOR_PART := PyStr (lit "X-1");
     COL_CUSTOMER_PRICE := PyNum (lit "1990");
     COL_AVAILABLE_QTY := Some 5;
     COL_CREATION_REASON := PyStr (lit "NEW");
     COL_CATEGORY := PyStr (lit "Cables");
     COL_SUBCATEGORY := PyStr (lit "USB") |}.

(** ** Further parts of the monitor *)

(** [find_latest_price_file], as a function of what the glob matched: each
    path with the modification time of its file. [max] keeps the first
    path among those with the greatest time. *)
Fixpoint max_by_mtime (best : str * Z) (files : list (str * Z)) : str * Z :=
  match files with
  | [] => best
  | f :: files' =>
      if snd best <? snd f then max_by_mtime f files'
      else max_by_mtime best files'
  end.

Definition find_latest_price_file_in (files : list (str * Z)) : option str :=
  match files with
  | [] => None
  | f :: files' => Some (fst (max_by_mtime f files'))
  end.

(** The headline count of [generate_html_dashboard] and of [main]. *)
Definition total_eligible (c : classification) : Z :=
  len (publish_ready c) + len (missing_ficha c) + len (need_creation c).

Inductive status_class_t : Type :=
| healthy
| warning
| critical.

(** The status banner of [generate_html_dashboard]. *)
Definition status_class (c : classification) : status_class_t :=
  if 100 <? total_eligible c then healthy
  else if 0 <? total_eligible c then warning
  else critical.

(** The funnel counts of [generate_html_dashboard]; [with_stock] is also
    the [con_stock_ingram] of the JSON summary. *)
Definition with_stock (st : report_stats) : Z :=
  r_total st - r_sin_stock_ingram st.

Definition after_clearance (st : report_stats) : Z :=
  with_stock st - r_clearance st.

(** The description cell of the clearance and stock tables:
    [desc[:60]] followed by ["..."] when [len(desc) > 60]. *)
Definition desc_cell (desc : str) : str :=
  firstn 60 desc ++ (if 60 <? len desc then lit "..." else []).

(** The identifier check answers valid, respectively invalid, on a row. *)
Definition id_valid (r : row) : bool :=
  match is_valid_pcf_id (COL_PCF_ID r) with
  | Ok true => true
  | _ => false
  end.

Definition id_invalid (r : row) : bool :=
  match is_valid_pcf_id (COL_PCF_ID r) with
  | Ok false => true
  | _ => false
  end.

(** Sample rows: without stock, under clearance, without identifier. *)
Definition out_of_stock_row : row :=
  {| COL_PCF_ID := PyStr (lit "501");
     COL_INGRAM_PART := PyStr (lit "CD456");
     COL_DESCRIPTION := PyStr (lit "HDMI cable");
     COL_VENDOR_NAME := PyStr (lit "ACME");
     COL_VENDOR_PART := PyStr (lit "H-2");
     COL_CUSTOMER_PRICE := PyNum (lit "2990");
     COL_AVAILABLE_QTY := None;
     COL_CREATION_REASON := PyStr (lit "NEW");
     COL_CATEGORY := PyStr (lit "Cables");
     COL_SUBCATEGORY := PyStr (lit "HDMI") |}.

Definition clearance_row : row :=
  {| COL_PCF_ID := PyStr (lit "502");
     COL_INGRAM_PART := PyStr (lit "EF789");
     COL_DESCRIPTION := PyStr (lit "VGA cable");
     COL_VENDOR_NAME := PyStr (lit "ACME");
     COL_VENDOR_PART := PyStr (lit "V-3");
     COL_CUSTOMER_PRICE := PyNum (lit "990");
     COL_AVAILABLE_QTY := Some 2;
     COL_CREATION_REASON := PyStr (lit "Clearance sale");
     COL_CATEGORY := PyStr (lit "Cables");
     COL_SUBCATEGORY := PyStr (lit "VGA") |}.

Definition no_id_row : row :=
  {| COL_PCF_ID := PyStr (lit "Sin ID");
     COL_INGRAM_PART := PyStr (lit "GH012");
     COL_DESCRIPTION := PyStr (lit "DVI cable");
     COL_VENDOR_NAME := PyStr (lit "ACME");
     COL_VENDOR_PART := PyStr (lit "D-4");
     COL_CUSTOMER_PRICE := PyNum (lit "1490");
     COL_AVAILABLE_QTY := Some 7;
     COL_CREATION_REASON := PyNaN;
     COL_CATEGORY := PyStr (lit "Cables");
     COL_SUBCATEGORY := PyStr (lit "DVI") |}.

Definition sample_frame : DataFrame :=
  [out_of_stock_row; untagged_row; clearance_row; no_id_row].

(** The bucket that the reply to a request leads to: what
    [check_product_api] makes of the reply, then the decision order of
    [classify_products]. *)
Definition reply_bucket (http : http_outcome) : bucket :=
  match http with
  | GetRaises _ _ => lookup_errors
  | Response status_code b =>
      if resp_ok status_code then
        match b with
        | JsonFails _ _ => lookup_errors
        | JsonObject data =>
            if is_True (get (p_mayorista data) (PyBool false)) then
              already_published
            else
              match parse_stock_aproximado
                      (get (p_stock data) (StockDict None)) with
              | Ok (Z.pos _) => has_own_stock
              | _ =>
                  if is_description_empty (get (p_descripcion data) (PyStr []))
                  then missing_description
                  else publish_ready_bucket
              end
        end
      else if status_code =? 404 then needs_creation
      else lookup_errors
  end.

(** The characters of the texts that [float()] accepts, in lower case and
    without underscores. *)
Definition float_char (c : ascii) : bool :=
  is_digit c || existsb (ch_eqb c) (lit "+-.einftya").

(** The row an entry of a bucket was made from. *)
Definition entry_row (e : entry) : row :=
  match e with
  | Checked it => item_row it
  | Unchecked _ r => r
  end.

(** The number of entries in the six buckets. *)
Definition classified (c : classification) : Z :=
  len (publish_ready c) + len (missing_ficha c) + len (need_creation c)
  + len (already_mayorista c) + len (has_pcf_stock c) + len (api_errors c).

(** The bucket of a classification by its name. *)
Definition bucket_list (b : bucket) (c : classification) : list entry :=
  match b with
  | lookup_errors => api_errors c
  | needs_creation => need_creation c
  | already_published => already_mayorista c
  | has_own_stock => has_pcf_stock c
  | missing_description => missing_ficha c
  | publish_ready_bucket => publish_ready c
  end.

(** Two outcomes of the batch that hold the same results up to order, or
    the same exception. *)
Definition same_results (a b : res (list item)) : Prop :=
  match a, b with
  | Ok ra, Ok rb => Permutation ra rb
  | Raise ea, Raise eb => ea = eb
  | _, _ => False
  end.

(** A text identifier that passes the check and on which [str.strip] and
    the trimming of [float()] agree (no FS, GS, RS or US at either end). *)
Definition plain_valid_id (r : row) : Prop :=
  exists s, COL_PCF_ID r = PyStr s
            /\ is_valid_pcf_id (PyStr s) = Ok true
            /\ strip s = cstrip s.

(** Sample inputs of a run: the arguments, a catalog that answers 404 to
    the one request, and the filters' result on a one-row frame. *)
Definition sample_args : args_t :=
  {| source := gsheet; sheet_id := lit "1mgGjhEm"; skip_api := false |}.

Definition sample_world : world :=
  {| read_google_sheet := Ok sample_frame;
     find_latest_price_file := None;
     read_price_file := Raise OtherException;
     https := [Response 404 (JsonFails ValueError [])];
     completion := [0%nat] |}.

Definition one_row_stats : xlsx_stats :=
  {| total := 1;
     sin_stock_ingram := 0;
     has_stock := [untagged_row];
     sin_stock_df := [];
     clearance := 0;
     clearance_products := [];
     eligible_xlsx := [untagged_row];
     has_pcf_id := [untagged_row];
     no_pcf_id := [] |}.

(** ** The stock text as a numeral *)

(** The text that [parse_stock_aproximado] hands to [int()]: the trimmed
    text of the field without one leading ["+"]; [None] when the stock is
    [None]. *)
Definition stock_int_text (stock_data : stock_field) : option str :=
  match stock_data with
  | StockVal PyNone => None
  | _ =>
      let aprox := strip (py_str (stock_raw_of stock_data)) in
      Some (if startswith (lit "+") aprox then tl aprox else aprox)
  end.

Definition is_us (c : ascii) : bool := ch_eqb c "_".

Definition head_us (s : str) : bool :=
  match s with
  | c :: _ => is_us c
  | [] => false
  end.

Fixpoint ends_with_us (s : str) : bool :=
  match s with
  | [] => false
  | c :: r =>
      match r with
      | [] => is_us c
      | _ :: _ => ends_with_us r
      end
  end.

(** Two underscores in a row somewhere in the text. *)
Fixpoint double_us (s : str) : bool :=
  match s with
  | [] => false
  | c :: r => (is_us c && head_us r) || double_us r
  end.

(** The digits of a text, without its underscores. *)
Definition digits_of (s : str) : str := filter is_digit s.

(** A numeral as [int()] reads one after the sign: not empty, made of
    digits and underscores, with a digit at each end, no two underscores
    in a row, and no more digits than the interpreter accepts. *)
Definition numeral_ok (body : str) : bool :=
  negb (is_empty body)
  && forallb (fun c => is_digit c || is_us c) body
  && negb (head_us body)
  && negb (ends_with_us body)
  && negb (double_us body)
  && negb (int_max_str_digits <? List.length (digits_of body))%nat.

(** What [int()] must give on a text: the number of the numeral that is
    left once the text is trimmed and its sign taken off, or
    [ValueError]. *)
Definition int_spec (t : str) : res Z :=
  let '(neg, body) := split_sign (cstrip t) in
  if numeral_ok body then
    Ok (if neg then - decimal (digits_of body) else decimal (digits_of body))
  else Raise ValueError.

(** What stock parsing must give: the number of the text when it is a
    numeral with or without the ["+"] prefix, and 0 when the value is
    absent or its text is no numeral. *)
Definition stock_spec (stock_data : stock_field) : Z :=
  match stock_int_text stock_data with
  | None => 0
  | Some t =>
      match int_spec t with
      | Ok z => z
      | Raise _ => 0
      end
  end.


(** The status and the stock that the result of a lookup must carry: a
    reply that is no 4xx or 5xx with a JSON object is a success with the
    parsed stock, a 404 is not found with stock 0, and every other reply
    and every exception is an error with the stock unknown. *)
Definition expected_status (http : http_outcome) : api_status_t :=
  match http with
  | GetRaises _ _ => status_error
  | Response status_code b =>
      if resp_ok status_code then
        match b with
        | JsonObject _ => status_ok
        | JsonFails _ _ => status_error
        end
      else if status_code =? 404 then status_not_found
      else status_error
  end.

Definition expected_stock (http : http_outcome) : option Z :=
  match http with
  | GetRaises _ _ => None
  | Response status_code b =>
      if resp_ok status_code then
        match b with
        | JsonObject data =>
            Some (stock_spec (get (p_stock data) (StockDict None)))
        | JsonFails _ _ => None
        end
      else if status_code =? 404 then Some 0
      else None
  end.

(** A reply that fails with status 503, and a request that times out. *)
Definition unavailable_reply : http_outcome :=
  Response 503 (JsonFails RequestException (lit "no JSON")).

Definition timed_out_request : http_outcome :=
  GetRaises RequestException (lit "Read timed out.").

(** A description of 22 characters between its tags, only 12 of which are
    left by the trim. *)
Definition padded_description : str :=
  lit "<p>Mouse optico          </p>".

(** The condition under which the digit loop of [int()] accepts a text;
    [u] tells that an underscore was just read. *)
Definition body_ok (u : bool) (s : str) : bool :=
  forallb (fun c => is_digit c || is_us c) s
  && negb (u && (is_empty s || head_us s))
  && negb (ends_with_us s)
  && negb (double_us s).

(** * Properties *)

(** ** The classifier assigns buckets by first match *)

Module Classifier.

Lemma after_nil (c : classification) : after c [] = c.
Proof.
  destruct c; unfold after, bucket_items; simpl.
  now rewrite !app_nil_r.
Qed.

Lemma classify_item_after (c : classification) (it : item) (l : list item) :
  after (classify_item c it) l = after c (it :: l).
Proof.
  unfold classify_item, after, bucket_items, bucket_of.
  destruct it as [pid r [st m sp raw n p1 p2 fv e]].
  destruct st, m as [ | | [ | ] | | | ], sp as [ [ | p | p ] | ],
    fv as [ [ | ] | ];
    cbn; unfold append; rewrite <- ?app_assoc; reflexivity.
Qed.

Lemma loop_after (l : list item) (c : classification) :
  fold_left classify_item l c = after c l.
Proof.
  revert c; induction l as [ | it l IH ]; intro c; simpl.
  - symmetry; apply after_nil.
  - rewrite IH. apply classify_item_after.
Qed.

Lemma no_id_loop (rows : DataFrame) (c : classification) :
  fold_left (fun c r => add_need_creation c (Unchecked None r)) rows c =
  {| publish_ready := publish_ready c;
     missing_ficha := missing_ficha c;
     need_creation := need_creation c ++ map (Unchecked None) rows;
     already_mayorista := already_mayorista c;
     has_pcf_stock := has_pcf_stock c;
     api_errors := api_errors c |}.
Proof.
  revert c; induction rows as [ | r rows IH ]; intro c; simpl.
  - destruct c; simpl; now rewrite app_nil_r.
  - rewrite IH; unfold add_need_creation, append; simpl.
    now rewrite <- app_assoc.
Qed.

Lemma classify_products_buckets (api_results : list item)
    (df_no_pcf_id : DataFrame) :
  classify_products api_results df_no_pcf_id =
  {| publish_ready := bucket_items publish_ready_bucket api_results;
     missing_ficha := bucket_items missing_description api_results;
     need_creation := bucket_items needs_creation api_results
                      ++ map (Unchecked None) df_no_pcf_id;
     already_mayorista := bucket_items already_published api_results;
     has_pcf_stock := bucket_items has_own_stock api_results;
     api_errors := bucket_items lookup_errors api_results |}.
Proof.
  unfold classify_products. rewrite loop_after, no_id_loop. reflexivity.
Qed.

(** Each candidate is counted in one bucket and in one only. *)
Lemma buckets_count (l : list item) :
  (List.length (bucket_items publish_ready_bucket l)
   + List.length (bucket_items missing_description l)
   + List.length (bucket_items needs_creation l)
   + List.length (bucket_items already_published l)
   + List.length (bucket_items has_own_stock l)
   + List.length (bucket_items lookup_errors l))%nat
  = List.length l.
Proof.
  unfold bucket_items; rewrite !length_map.
  induction l as [ | it l IH ]; [ reflexivity | ].
  cbn [filter]. destruct (bucket_of (api it)); cbn [bucket_eqb List.length];
    lia.
Qed.

(** C1. [classify_products] puts every candidate in exactly one bucket, the
    one that the ordered tests pick by first match (error, not found,
    visibility flag true, known stock above 0, description flagged empty,
    else ready), and keeps encounter order; the rows without identifier
    follow in [need_creation]. A candidate with the error outcome lands in
    [api_errors] whatever its other fields hold, and one with visibility
    true and positive stock lands in [already_mayorista]. *)
Theorem C1_first_match_buckets :
  (forall api_results df_no_pcf_id,
     classify_products api_results df_no_pcf_id =
     {| publish_ready := bucket_items publish_ready_bucket api_results;
        missing_ficha := bucket_items missing_description api_results;
        need_creation := bucket_items needs_creation api_results
                         ++ map (Unchecked None) df_no_pcf_id;
        already_mayorista := bucket_items already_published api_results;
        has_pcf_stock := bucket_items has_own_stock api_results;
        api_errors := bucket_items lookup_errors api_results |})
  /\ (forall api_results,
        (List.length (bucket_items publish_ready_bucket api_results)
         + List.length (bucket_items missing_description api_results)
         + List.length (bucket_items needs_creation api_results)
         + List.length (bucket_items already_published api_results)
         + List.length (bucket_items has_own_stock api_results)
         + List.length (bucket_items lookup_errors api_results))%nat
        = List.length api_results)
  /\ (forall pid r m s raw n p1 p2 f e,
        let it := mkItem pid r (mkApi status_error m s raw n p1 p2 f e) in
        classify_products [it] [] =
        {| publish_ready := []; missing_ficha := []; need_creation := [];
           already_mayorista := []; has_pcf_stock := [];
           api_errors := [Checked it] |})
  /\ (forall pid r p raw n p1 p2 f e,
        let it := mkItem pid r
                    (mkApi status_ok (PyBool true) (Some (Z.pos p)) raw n p1
                       p2 f e) in
        classify_products [it] [] =
        {| publish_ready := []; missing_ficha := []; need_creation := [];
           already_mayorista := [Checked it]; has_pcf_stock := [];
           api_errors := [] |}).
Proof.
  split; [ exact classify_products_buckets | ].
  split; [ exact buckets_count | ].
  split; intros; reflexivity.
Qed.

End Classifier.

(** ** Facts about text *)

Module TextFacts.

Ltac by_char c := destruct c as [[] [] [] [] [] [] [] []]; reflexivity.

Lemma to_lower_idem (c : ascii) : to_lower (to_lower c) = to_lower c.
Proof. by_char c. Qed.

Lemma is_cspace_to_lower (c : ascii) : is_cspace (to_lower c) = is_cspace c.
Proof. by_char c. Qed.

Lemma is_space_to_lower (c : ascii) : is_space (to_lower c) = is_space c.
Proof. by_char c. Qed.

Lemma is_cspace_is_space (c : ascii) : is_cspace c = true -> is_space c = true.
Proof. destruct c as [[] [] [] [] [] [] [] []]; intro H; (reflexivity || discriminate H). Qed.

Lemma lower_idem (s : str) : lower (lower s) = lower s.
Proof.
  unfold lower; rewrite map_map; apply map_ext; intro; apply to_lower_idem.
Qed.

Lemma clstrip_lower (s : str) : clstrip (lower s) = lower (clstrip s).
Proof.
  induction s as [ | c s IH ]; simpl; [ reflexivity | ].
  rewrite is_cspace_to_lower; now destruct (is_cspace c).
Qed.

Lemma crstrip_lower (s : str) : crstrip (lower s) = lower (crstrip s).
Proof.
  unfold lower; induction s as [ | c s IH ]; [ reflexivity | ].
  cbn [map crstrip]; rewrite IH.
  destruct (crstrip s); cbn [map]; [ | reflexivity ].
  rewrite is_cspace_to_lower; now destruct (is_cspace c).
Qed.

Lemma cstrip_lower (s : str) : cstrip (lower s) = lower (cstrip s).
Proof. unfold cstrip; now rewrite clstrip_lower, crstrip_lower. Qed.

Lemma lstrip_lower (s : str) : lstrip (lower s) = lower (lstrip s).
Proof.
  induction s as [ | c s IH ]; simpl; [ reflexivity | ].
  rewrite is_space_to_lower; now destruct (is_space c).
Qed.

Lemma rstrip_lower (s : str) : rstrip (lower s) = lower (rstrip s).
Proof.
  unfold lower; induction s as [ | c s IH ]; [ reflexivity | ].
  cbn [map rstrip]; rewrite IH.
  destruct (rstrip s); cbn [map]; [ | reflexivity ].
  rewrite is_space_to_lower; now destruct (is_space c).
Qed.

Lemma strip_lower (s : str) : strip (lower s) = lower (strip s).
Proof. unfold strip; now rewrite lstrip_lower, rstrip_lower. Qed.

(** [float()] does not depend on the case of its argument. *)
Lemma float_of_str_lower (s : str) : float_of_str (lower s) = float_of_str s.
Proof. unfold float_of_str; now rewrite cstrip_lower, lower_idem. Qed.

Lemma ch_eqb_eq (a b : ascii) : ch_eqb a b = true <-> a = b.
Proof. apply Ascii.eqb_eq. Qed.

Lemma str_eqb_eq (a b : str) : str_eqb a b = true <-> a = b.
Proof.
  revert b; induction a as [ | x a IH ]; intros [ | y b ]; simpl;
    try (split; (reflexivity || discriminate)).
  rewrite andb_true_iff, ch_eqb_eq, IH.
  split; [ intros [-> ->]; reflexivity | intro H; now inversion H ].
Qed.

Lemma existsb_str_eqb (s : str) (l : list str) :
  existsb (str_eqb s) l = true <-> In s l.
Proof.
  rewrite existsb_exists; split.
  - intros [x [Hin Heq]]; apply str_eqb_eq in Heq; now subst.
  - intro Hin; exists s; split; [ assumption | now apply str_eqb_eq ].
Qed.

Lemma is_empty_nil (s : str) : is_empty s = true <-> s = [].
Proof. destruct s; simpl; split; (reflexivity || discriminate). Qed.

End TextFacts.

(** ** Identifier validity *)

Module Identifier.

Import TextFacts.

Lemma is_valid_pcf_id_true (val : pyval) :
  is_valid_pcf_id val = Ok true <-> well_formed val.
Proof.
  unfold is_valid_pcf_id, well_formed, int_float.
  destruct (pd_isna val); cbn [orb].
  { split; [ discriminate | intros [H _]; discriminate H ]. }
  destruct (is_empty (strip (py_str val))) eqn:He.
  { apply is_empty_nil in He.
    split; [ discriminate | intros (_ & H & _); contradiction ]. }
  assert (Hne : strip (py_str val) <> []).
  { intro H; apply is_empty_nil in H; congruence. }
  destruct (existsb (str_eqb (lower (strip (py_str val)))) sentinels) eqn:Hs.
  { apply existsb_str_eqb in Hs.
    split; [ discriminate | intros (_ & _ & H & _); contradiction ]. }
  assert (Hns : ~ In (lower (strip (py_str val))) sentinels).
  { intro H; apply existsb_str_eqb in H; congruence. }
  rewrite float_of_str_lower.
  destruct (float_of_str (strip (py_str val))) as [f | e]; simpl.
  - destruct (int_of_float f) as [z | e]; simpl.
    + split; [ intros _; repeat split; eauto | reflexivity ].
    + split.
      * destruct e; simpl; discriminate.
      * intros (_ & _ & _ & z & H); discriminate H.
  - split.
    + destruct e; simpl; discriminate.
    + intros (_ & _ & _ & z & H); discriminate H.
Qed.

(** C3. [is_valid_pcf_id] answers valid exactly when the cell is present,
    its trimmed text is not blank and is none of the tokens "sin id",
    "n/a", "na", "-", "none" in any case, and the trimmed text parses as a
    float that truncates to an integer without error. "123" and "123.0" are
    valid and both convert to 123; "Sin ID", "N/A", the empty text, a
    missing cell and "ABC123" are invalid. *)
Theorem C3_identifier_validity :
  (forall val, is_valid_pcf_id val = Ok true <-> well_formed val)
  /\ is_valid_pcf_id (PyStr (lit "123")) = Ok true
  /\ int_float (lit "123") = Ok 123
  /\ is_valid_pcf_id (PyStr (lit "123.0")) = Ok true
  /\ int_float (lit "123.0") = Ok 123
  /\ is_valid_pcf_id (PyStr (lit "Sin ID")) = Ok false
  /\ is_valid_pcf_id (PyStr (lit "N/A")) = Ok false
  /\ is_valid_pcf_id (PyStr []) = Ok false
  /\ is_valid_pcf_id PyNone = Ok false
  /\ is_valid_pcf_id PyNaN = Ok false
  /\ is_valid_pcf_id (PyStr (lit "ABC123")) = Ok false.
Proof.
  split; [ exact is_valid_pcf_id_true | ].
  repeat split; vm_compute; reflexivity.
Qed.

(** C5. The claim is that [is_valid_pcf_id] answers with a boolean on every
    cell. On a cell whose text reads as an infinite float ("inf",
    "Infinity", "1e999") the conversion [int(float(s))] raises
    [OverflowError], which the handler for [ValueError] and [TypeError]
    lets through: the check raises instead of answering. *)
Theorem C5_infinite_identifier_raises :
  is_valid_pcf_id (PyStr (lit "inf")) = Raise OverflowError
  /\ is_valid_pcf_id (PyStr (lit "Infinity")) = Raise OverflowError
  /\ is_valid_pcf_id (PyStr (lit "1e999")) = Raise OverflowError
  /\ is_valid_pcf_id (PyNum (lit "inf")) = Raise OverflowError.
Proof. repeat split; vm_compute; reflexivity. Qed.

End Identifier.

(** ** The row normalizer *)

Module Normalizer.

Lemma filter_split {A : Type} (p : A -> bool) (l : list A) :
  Permutation (filter p l ++ filter (fun x => negb (p x)) l) l.
Proof.
  induction l as [ | x l IH ]; simpl; [ constructor | ].
  destruct (p x); simpl.
  - now constructor.
  - apply Permutation_sym, Permutation_cons_app, Permutation_sym, IH.
Qed.

Lemma select_split {A : Type} (mask : list bool) (l : list A) :
  List.length mask = List.length l ->
  Permutation (select mask l ++ select (map negb mask) l) l.
Proof.
  unfold select; revert l.
  induction mask as [ | b mask IH ]; intros [ | x l ] Hlen;
    try discriminate Hlen; simpl; [ constructor | ].
  injection Hlen as Hlen. specialize (IH l Hlen).
  destruct b; simpl.
  - now constructor.
  - apply Permutation_sym, Permutation_cons_app, Permutation_sym, IH.
Qed.

Lemma mapM_length {A B : Type} (f : A -> res B) (l : list A) (bs : list B) :
  mapM f l = Ok bs -> List.length bs = List.length l.
Proof.
  revert bs; induction l as [ | a l IH ]; simpl; intros bs H.
  - injection H as <-; reflexivity.
  - destruct (f a); simpl in H; [ | discriminate H ].
    destruct (mapM f l); simpl in H; [ | discriminate H ].
    injection H as <-; simpl; f_equal; now apply IH.
Qed.


Lemma mapM_raises {A B : Type} (f : A -> res B) (l : list A) (e : exn) :
  mapM f l = Raise e -> exists a, In a l /\ f a = Raise e.
Proof.
  induction l as [ | a l IH ]; simpl; [ discriminate | ].
  destruct (f a) as [b | e'] eqn:Ha; simpl.
  - destruct (mapM f l); simpl; [ discriminate | ].
    intro H; injection H as ->. destruct (IH eq_refl) as [x [Hin Hx]].
    exists x; auto.
  - intro H; injection H as ->. exists a; auto.
Qed.

(** The stock test and the test that fills [sin_stock_df] are
    complementary. *)
Lemma not_stocked (r : row) :
  (fillna0 (COL_AVAILABLE_QTY r) <=? 0) = negb (stocked r).
Proof.
  unfold stocked.
  destruct (Z.leb_spec (fillna0 (COL_AVAILABLE_QTY r)) 0),
           (Z.ltb_spec 0 (fillna0 (COL_AVAILABLE_QTY r))); simpl; lia.
Qed.

Lemma stock_split (df : DataFrame) :
  Permutation (sin_stock_df_of df ++ has_stock_of df) df.
Proof.
  unfold sin_stock_df_of, has_stock_of.
  rewrite (filter_ext _ _ not_stocked).
  eapply Permutation_trans; [ apply Permutation_app_comm | ].
  apply filter_split.
Qed.

Lemma clearance_split (df : DataFrame) :
  Permutation (clearance_products_of df ++ eligible_xlsx_of df)
    (has_stock_of df).
Proof. apply filter_split. Qed.

(** X1. Whenever [apply_xlsx_filters] returns, its four parts hold every row
    of the frame once, and the counts it reports agree with them. *)
Lemma apply_xlsx_filters_partition (df : DataFrame) (st : xlsx_stats) :
  apply_xlsx_filters df = Ok st ->
  Permutation
    (sin_stock_df st ++ clearance_products st ++ has_pcf_id st ++ no_pcf_id st)
    df
  /\ len (sin_stock_df st) + len (clearance_products st)
     + len (has_pcf_id st) + len (no_pcf_id st) = total st
  /\ sin_stock_ingram st = len (sin_stock_df st)
  /\ clearance st = len (clearance_products st)
  /\ total st = len df.
Proof.
  unfold apply_xlsx_filters.
  destruct (str_accessor _ _) as [ [] | e ]; cbn [bind]; [ | discriminate ].
  destruct (mapM is_valid_pcf_id (map COL_PCF_ID (eligible_xlsx_of df)))
    as [mask | e] eqn:Hm; simpl; [ | discriminate ].
  intro H; injection H as <-; cbn.
  apply mapM_length in Hm; rewrite length_map in Hm.
  pose proof (select_split mask (eligible_xlsx_of df) Hm) as Hid.
  assert (Hall : Permutation
            (sin_stock_df_of df ++ clearance_products_of df
             ++ select mask (eligible_xlsx_of df)
             ++ select (map negb mask) (eligible_xlsx_of df)) df).
  { eapply Permutation_trans; [ | apply stock_split ].
    apply Permutation_app_head.
    eapply Permutation_trans; [ | apply clearance_split ].
    now apply Permutation_app_head. }
  pose proof (Permutation_length Hall) as Hlen.
  pose proof (Permutation_length (stock_split df)) as Hlen2.
  rewrite !length_app in Hlen. rewrite length_app in Hlen2.
  unfold len. repeat split; try assumption; lia.
Qed.

(** The accessor is granted on a frame with a stocked row whose creation
    reason is a text. *)
Lemma str_accessor_text (df : DataFrame) (r : row) (s : str) :
  In r df -> stocked r = true -> COL_CREATION_REASON r = PyStr s ->
  str_accessor (map COL_CREATION_REASON df)
    (map COL_CREATION_REASON (has_stock_of df)) = Ok tt.
Proof.
  intros Hin Hst Hs.
  assert (Hcell : In (PyStr s) (map COL_CREATION_REASON df)).
  { rewrite <- Hs; now apply in_map. }
  assert (Hval : In (PyStr s)
                   (filter (fun v => negb (pd_isna v))
                      (map COL_CREATION_REASON (has_stock_of df)))).
  { apply filter_In; split; [ | reflexivity ].
    rewrite <- Hs; apply in_map. unfold has_stock_of.
    apply filter_In; now split. }
  assert (Hno : forall (f : pyval -> bool) l,
            In (PyStr s) l -> f (PyStr s) = false -> forallb f l = false).
  { intros f l Hl Hf. destruct (forallb f l) eqn:Hall; [ | reflexivity ].
    rewrite forallb_forall in Hall. now rewrite (Hall _ Hl) in Hf. }
  unfold str_accessor, typed_column, same_class.
  rewrite !(Hno _ _ Hcell), !(Hno _ _ Hval) by reflexivity.
  now rewrite !andb_false_r.
Qed.

(** The accessor is refused on a frame with rows whose creation reason is
    blank throughout. *)
Lemma str_accessor_blank (df : DataFrame) :
  df <> [] ->
  Forall (fun r => pd_isna (COL_CREATION_REASON r) = true) df ->
  str_accessor (map COL_CREATION_REASON df)
    (map COL_CREATION_REASON (has_stock_of df)) = Raise AttributeError.
Proof.
  intros Hne Hall.
  assert (Hnum : forallb (fun v => pd_isna v || is_number_cell v)
                   (map COL_CREATION_REASON df) = true).
  { apply forallb_forall; intros v Hv. apply in_map_iff in Hv.
    destruct Hv as (r & <- & Hr). rewrite Forall_forall in Hall.
    now rewrite (Hall r Hr). }
  unfold str_accessor, typed_column. rewrite Hnum.
  destruct df; [ contradiction | reflexivity ].
Qed.


(** C2. The claim is that the normalizer splits every frame into four
    parts that hold each row once. It does so whenever it returns
    ([apply_xlsx_filters_partition]), but on a frame with a stocked row
    outside clearance whose identifier reads as an infinite float the
    identifier check raises [OverflowError] and [apply_xlsx_filters] raises
    with it: the frame is split into no parts at all, alone or among
    ordinary rows. *)
Theorem C2_no_partition_on_infinite_identifier :
  apply_xlsx_filters [infinite_id_row] = Raise OverflowError
  /\ (forall df1 df2,
        Forall (fun r => exists b, is_valid_pcf_id (COL_PCF_ID r) = Ok b)
          (eligible_xlsx_of df1) ->
        apply_xlsx_filters (df1 ++ infinite_id_row :: df2)
        = Raise OverflowError).
Proof.
  split; [ vm_compute; reflexivity | ].
  intros df1 df2 Hall. unfold apply_xlsx_filters.
  rewrite (str_accessor_text (df1 ++ infinite_id_row :: df2) infinite_id_row
             (lit "NEW"));
    [ | apply in_elt | reflexivity | reflexivity ].
  cbn [bind]. unfold eligible_xlsx_of, has_stock_of.
  rewrite !filter_app, map_app. simpl filter.
  change (stocked infinite_id_row) with true.
  change (negb (is_clearance infinite_id_row)) with true.
  cbn [filter map].
  unfold eligible_xlsx_of, has_stock_of in Hall.
  induction Hall as [ | r l [b Hb] _ IH ]; simpl.
  - change (is_valid_pcf_id (COL_PCF_ID infinite_id_row))
      with (@Raise bool OverflowError). reflexivity.
  - rewrite Hb; simpl.
    destruct (mapM is_valid_pcf_id _) as [bs | e]; simpl in *;
      [ discriminate IH | exact IH ].
Qed.

End Normalizer.

(** ** The clearance test on a missing creation reason *)

Module ClearanceFilter.

Import Normalizer.

Lemma missing_reason_not_clearance (r : row) :
  pd_isna (COL_CREATION_REASON r) = true -> is_clearance r = false.
Proof.
  unfold is_clearance; destruct (COL_CREATION_REASON r); simpl;
    (reflexivity || discriminate).
Qed.

(** C10. The claim is that a stocked row whose creation reason is missing
    is never counted as clearance and always proceeds to the identifier
    stage. Whenever the filters return this is so
    ([missing_reason_is_kept]). But the clearance test reads the column
    through [.str]: on a sheet with rows whose creation reason is blank in
    every row the column is read as [float64], the accessor raises
    [AttributeError], [apply_xlsx_filters] raises with it and the run
    ends without a file. A stocked row of such a sheet reaches no stage at
    all. *)
Theorem C10_blank_reason_column_raises :
  (forall df,
      df <> [] ->
      Forall (fun r => pd_isna (COL_CREATION_REASON r) = true) df ->
      apply_xlsx_filters df = Raise AttributeError)
  /\ stocked untagged_row = true
  /\ pd_isna (COL_CREATION_REASON untagged_row) = true
  /\ is_valid_pcf_id (COL_PCF_ID untagged_row) = Ok true
  /\ apply_xlsx_filters [untagged_row] = Raise AttributeError
  /\ (forall sid skip local_file excel https completion,
        main (mkArgs gsheet sid skip)
          (mkWorld (Ok [untagged_row]) local_file excel https completion)
        = {| written := []; exit := Raise AttributeError |})
  /\ (forall sid skip sheet price_file https completion,
        main (mkArgs local sid skip)
          (mkWorld sheet (Some price_file) (Ok [untagged_row]) https
             completion)
        = {| written := []; exit := Raise AttributeError |}).
Proof.
  split.
  { intros df Hne Hall. unfold apply_xlsx_filters.
    now rewrite (str_accessor_blank df Hne Hall). }
  repeat split; vm_compute; reflexivity.
Qed.

(** X20. Whenever the filters return, a stocked row whose creation reason
    is a missing cell has not been counted as clearance: it is not in
    [clearance_products], it is in [eligible_xlsx], and it is in
    [has_pcf_id] or in [no_pcf_id]. *)
Theorem missing_reason_is_kept (df : DataFrame) (st : xlsx_stats) (r : row) :
  apply_xlsx_filters df = Ok st ->
  In r df ->
  stocked r = true ->
  pd_isna (COL_CREATION_REASON r) = true ->
  ~ In r (clearance_products st)
  /\ In r (eligible_xlsx st)
  /\ (In r (has_pcf_id st) \/ In r (no_pcf_id st)).
Proof.
  intros H Hin Hst Hna.
  pose proof (missing_reason_not_clearance r Hna) as Hc.
  assert (Hnot : ~ In r (clearance_products_of df)).
  { unfold clearance_products_of; rewrite filter_In; intros [_ H']; congruence. }
  assert (Hel : In r (eligible_xlsx_of df)).
  { unfold eligible_xlsx_of, has_stock_of; rewrite !filter_In, Hc; auto. }
  unfold apply_xlsx_filters in H.
  destruct (str_accessor _ _) as [ [] | e ]; cbn [bind] in H;
    [ | discriminate H ].
  destruct (mapM _ _) as [mask | e] eqn:Hm; simpl in H; [ | discriminate H ].
  injection H as <-; cbn.
  apply mapM_length in Hm; rewrite length_map in Hm.
  repeat split; try assumption.
  apply in_app_or.
  eapply Permutation_in; [ apply Permutation_sym, select_split, Hm | ].
  exact Hel.
Qed.

Lemma missing_reason_witness :
  exists st,
    apply_xlsx_filters sample_frame = Ok st
    /\ ~ In no_id_row (clearance_products st)
    /\ In no_id_row (eligible_xlsx st)
    /\ (In no_id_row (has_pcf_id st) \/ In no_id_row (no_pcf_id st)).
Proof.
  destruct (apply_xlsx_filters sample_frame) as [st | e] eqn:H;
    [ | vm_compute in H; discriminate H ].
  exists st; split; [ reflexivity | ].
  apply (missing_reason_is_kept sample_frame st no_id_row H).
  - simpl; tauto.
  - reflexivity.
  - reflexivity.
Defined.

End ClearanceFilter.

(** ** Substantive descriptions *)

Module Description.

Import TextFacts.

Lemma is_description_empty_false (v : pyval) :
  is_description_empty v = false <->
  truthy v = true /\ 20 <= len (plain_text (py_str v)).
Proof.
  unfold is_description_empty, plain_text.
  destruct (truthy v); cbn [negb].
  - destruct (strip (py_str v)) as [ | c s ] eqn:Hs; cbn [is_empty].
    + split; [ discriminate | ]. intros [_ H]; vm_compute in H.
      now contradiction H.
    + rewrite Z.ltb_ge. tauto.
  - split; [ discriminate | intros [H _]; discriminate H ].
Qed.

Lemma text_description_substantive (s : str) :
  is_description_empty (PyStr s) = false <-> 20 <= len (plain_text s).
Proof.
  rewrite is_description_empty_false; simpl.
  split; [ tauto | intro H; split; [ | exact H ] ].
  destruct s; [ vm_compute in H; now contradiction H | reflexivity ].
Qed.

Lemma sub_tags_plain (s : str) : ~ In "<"%char s -> sub_tags s = s.
Proof.
  unfold sub_tags; induction s as [ | c s IH ]; simpl; [ reflexivity | ].
  intro H. destruct (ch_eqb c "<") eqn:Hc.
  - apply ch_eqb_eq in Hc; subst; exfalso; apply H; now left.
  - f_equal; apply IH; intro Hin; apply H; now right.
Qed.

(** *** What removing the markup does *)

Lemma until_gt_none (s : str) : ~ In ">"%char s -> until_gt s = None.
Proof.
  induction s as [ | c s IH ]; simpl; [ reflexivity | ].
  intro H. destruct (ch_eqb c ">") eqn:Hc.
  - apply ch_eqb_eq in Hc; subst; exfalso; apply H; now left.
  - rewrite IH; [ reflexivity | intro Hin; apply H; now right ].
Qed.

Lemma until_gt_tag (t b : str) :
  ~ In ">"%char t -> until_gt (t ++ ">"%char :: b) = Some (t, b).
Proof.
  induction t as [ | c t IH ]; simpl; intro H; [ reflexivity | ].
  destruct (ch_eqb c ">") eqn:Hc.
  - apply ch_eqb_eq in Hc; subst; exfalso; apply H; now left.
  - rewrite IH; [ reflexivity | intro Hin; apply H; now right ].
Qed.

Lemma sub_tags_skip (t r : str) (k : nat) :
  sub_tags_from (List.length t + k) (t ++ r) = sub_tags_from k r.
Proof.
  induction t as [ | c t IH ]; [ reflexivity | exact IH ].
Qed.

(** A character other than ["<"] is kept. *)
Lemma sub_tags_char (c : ascii) (s : str) :
  c <> "<"%char -> sub_tags (c :: s) = c :: sub_tags s.
Proof.
  intro Hc. unfold sub_tags; cbn [sub_tags_from].
  destruct (ch_eqb c "<") eqn:H; [ | reflexivity ].
  apply ch_eqb_eq in H; contradiction.
Qed.

(** A ["<"], at least one character other than [">"], and a [">"] are
    removed together. *)
Lemma sub_tags_tag (t b : str) :
  t <> [] -> ~ In ">"%char t ->
  sub_tags ("<"%char :: t ++ ">"%char :: b) = sub_tags b.
Proof.
  intros Hne Ht. unfold sub_tags; cbn [sub_tags_from].
  change (ch_eqb "<" "<") with true; cbn iota.
  rewrite (until_gt_tag t b Ht).
  destruct t as [ | c t' ]; [ contradiction | ]. cbn [is_empty].
  replace (S (List.length (c :: t'))) with (List.length (c :: t') + 1)%nat
    by lia.
  rewrite sub_tags_skip. reflexivity.
Qed.

(** A ["<"] that a [">"] follows at once is kept, and so is the [">"]. *)
Lemma sub_tags_pair (b : str) :
  sub_tags ("<"%char :: ">"%char :: b) = "<"%char :: ">"%char :: sub_tags b.
Proof. reflexivity. Qed.

(** A ["<"] that no [">"] follows is kept, with all that comes after. *)
Lemma sub_tags_open (s : str) :
  ~ In ">"%char s -> sub_tags ("<"%char :: s) = "<"%char :: s.
Proof.
  assert (Hall : forall r, ~ In ">"%char r -> sub_tags_from 0 r = r).
  { induction r as [ | c r IH ]; [ reflexivity | ].
    intro H. cbn [sub_tags_from].
    assert (Hr : ~ In ">"%char r) by (intro Hin; apply H; now right).
    rewrite (until_gt_none r Hr), (IH Hr).
    now destruct (ch_eqb c "<"). }
  intro H. apply Hall. intros [Hc | Hin]; [ discriminate Hc | now apply H ].
Qed.

(** C9, as amended. A description counts as substantive (not empty)
    exactly when its plain text has at least 20 characters, where the
    plain text is what is left once the description is trimmed, its markup
    removed, and the rest trimmed again; for a value that is not text this
    holds of its [str()] when the value is true. Removing the markup keeps
    every character other than ["<"], drops a ["<"] together with the
    characters up to the next [">"] when there is at least one, and keeps
    a ["<"] that is followed at once by [">"] or by no [">"] at all.
    "<b></b>" is empty, a missing and a blank description are empty, a
    description of 25 characters without markup or surrounding whitespace
    is not empty, and 19 characters between tags are empty where 20 are
    not. *)
Theorem C9_substantive_description :
  (forall s, is_description_empty (PyStr s) = false
             <-> 20 <= len (plain_text s))
  /\ (forall v, is_description_empty v = false
                <-> truthy v = true /\ 20 <= len (plain_text (py_str v)))
  /\ is_description_empty (PyStr (lit "<b></b>")) = true
  /\ is_description_empty PyNone = true
  /\ is_description_empty (PyStr []) = true
  /\ is_description_empty (PyStr (lit "   ")) = true
  /\ is_description_empty (PyStr (lit "Notebook 15.6 pulgadas i5")) = false
  /\ (forall s, List.length s = 25%nat -> ~ In "<"%char s -> strip s = s ->
        is_description_empty (PyStr s) = false)
  /\ sub_tags [] = []
  /\ (forall c s, c <> "<"%char -> sub_tags (c :: s) = c :: sub_tags s)
  /\ (forall t b, t <> [] -> ~ In ">"%char t ->
        sub_tags ("<"%char :: t ++ ">"%char :: b) = sub_tags b)
  /\ (forall b, sub_tags ("<"%char :: ">"%char :: b)
                = "<"%char :: ">"%char :: sub_tags b)
  /\ (forall s, ~ In ">"%char s -> sub_tags ("<"%char :: s) = "<"%char :: s)
  /\ is_description_empty
       (PyStr (lit "<p class='d'>Cable USB de 2 m</p>")) = true
  /\ is_description_empty
       (PyStr (lit "<p>Mouse optico 800dpi</p>")) = true
  /\ is_description_empty
       (PyStr (lit "<p>Mouse optico 1200dpi</p>")) = false
  /\ is_description_empty
       (PyStr (lit "<br/><br/><br/><br/><br/><br/><br/>")) = true.
Proof.
  split; [ exact text_description_substantive | ].
  split; [ exact is_description_empty_false | ].
  do 5 (split; [ vm_compute; reflexivity | ]).
  split.
  { intros s Hlen Hplain Htrim.
    apply text_description_substantive. unfold plain_text.
    rewrite Htrim, (sub_tags_plain s Hplain), Htrim.
    unfold len; rewrite Hlen; vm_compute; discriminate. }
  split; [ reflexivity | ].
  split; [ exact sub_tags_char | ].
  split; [ exact sub_tags_tag | ].
  split; [ exact sub_tags_pair | ].
  split; [ exact sub_tags_open | ].
  repeat split; vm_compute; reflexivity.
Qed.

Lemma C9_witness :
  is_description_empty (PyStr (lit "Mouse optico USB 1200 dpi")) = false
  /\ sub_tags (lit "<b>Mouse</b>") = lit "Mouse".
Proof.
  destruct C9_substantive_description
    as (_ & _ & _ & _ & _ & _ & _ & H25 & _ & _ & Htag & _).
  split.
  - apply (H25 (lit "Mouse optico USB 1200 dpi")).
    + reflexivity.
    + vm_compute; intuition discriminate.
    + reflexivity.
  - change (sub_tags (lit "<b>Mouse</b>"))
      with (sub_tags ("<"%char :: lit "b" ++ ">"%char :: lit "Mouse</b>")).
    rewrite (Htag (lit "b") (lit "Mouse</b>")).
    + reflexivity.
    + discriminate.
    + vm_compute; intuition discriminate.
Defined.

(** C9, as stated, fails: once the markup of this description is removed
    the remaining text has 22 characters, at least 20, yet the description
    counts as empty, because only 12 characters are left by the trim. *)
Lemma C9_padded_markup_is_empty :
  sub_tags padded_description = lit "Mouse optico          "
  /\ len (sub_tags padded_description) = 22
  /\ 20 <= len (sub_tags padded_description)
  /\ plain_text padded_description = lit "Mouse optico"
  /\ is_description_empty (PyStr padded_description) = true.
Proof. repeat split; vm_compute; (reflexivity || discriminate). Qed.

End Description.

(** ** [int()] on a text *)

Module Numerals.

Import TextFacts.

Lemma us_not_digit (c : ascii) : is_us c = true -> is_digit c = false.
Proof. unfold is_us; intro H; apply ch_eqb_eq in H; now subst. Qed.

Lemma int_body_spec (s : str) (acc : Z) (count : nat) (u : bool) :
  int_body acc count u s =
  if body_ok u s then
    Some (fold_left (fun a c => 10 * a + digit_val c) (digits_of s) acc,
          (count + List.length (digits_of s))%nat)
  else None.
Proof.
  revert acc count u; induction s as [ | c r IH ]; intros acc count u.
  - unfold body_ok; destruct u; cbn; [ reflexivity | ].
    now rewrite Nat.add_0_r.
  - cbn [int_body]. fold (is_us c).
    destruct (is_us c) eqn:Hus.
    + pose proof (us_not_digit c Hus) as Hd.
      assert (Hdig : digits_of (c :: r) = digits_of r)
        by (unfold digits_of; cbn [filter]; now rewrite Hd).
      rewrite Hdig.
      destruct u.
      * unfold body_ok; cbn [head_us is_empty]. rewrite Hus.
        cbn [andb orb negb]. now rewrite andb_false_r.
      * rewrite IH.
        assert (Hok : body_ok true r = body_ok false (c :: r)).
        { unfold body_ok;
            cbn [forallb head_us is_empty ends_with_us double_us].
          rewrite Hus, Hd. destruct r as [ | d r' ].
          - reflexivity.
          - cbn [is_empty head_us andb orb negb].
            destruct (forallb _ (d :: r')), (is_us d),
              (ends_with_us (d :: r')), (double_us (d :: r')); reflexivity. }
        now rewrite Hok.
    + destruct (is_digit c) eqn:Hd.
      * rewrite IH.
        assert (Hok : body_ok false r = body_ok u (c :: r)).
        { unfold body_ok;
            cbn [forallb head_us is_empty ends_with_us double_us].
          rewrite Hus, Hd. cbn [andb orb negb].
          rewrite andb_false_r. cbn [negb andb].
          destruct r; reflexivity. }
        rewrite Hok.
        assert (Hdig : digits_of (c :: r) = c :: digits_of r)
          by (unfold digits_of; cbn [filter]; now rewrite Hd).
        rewrite Hdig. cbn [fold_left List.length].
        now rewrite Nat.add_succ_r.
      * unfold body_ok; cbn [forallb]. rewrite Hus, Hd. reflexivity.
Qed.

Lemma int_digits_spec (body : str) :
  int_digits body =
  if negb (is_empty body)
     && forallb (fun c => is_digit c || is_us c) body
     && negb (head_us body)
     && negb (ends_with_us body)
     && negb (double_us body)
  then Some (decimal (digits_of body), List.length (digits_of body))
  else None.
Proof.
  unfold int_digits. destruct body as [ | c r ]; [ reflexivity | ].
  fold (is_us c). cbn [is_empty negb andb head_us].
  destruct (is_us c) eqn:Hus.
  - now rewrite andb_false_r.
  - rewrite int_body_spec. unfold body_ok. cbn [andb negb].
    rewrite andb_true_r. reflexivity.
Qed.

(** [int()] gives the number of a numeral and refuses every other text. *)
Lemma int_of_str_spec (t : str) : int_of_str t = int_spec t.
Proof.
  unfold int_of_str, int_spec, numeral_ok.
  destruct (split_sign (cstrip t)) as [neg body].
  rewrite int_digits_spec.
  destruct (negb (is_empty body)
            && forallb (fun c => is_digit c || is_us c) body
            && negb (head_us body) && negb (ends_with_us body)
            && negb (double_us body)); cbn [andb]; [ | reflexivity ].
  unfold decimal.
  destruct (int_max_str_digits <? List.length (digits_of body))%nat;
    reflexivity.
Qed.

Lemma int_spec_raises (t : str) (e : exn) :
  int_spec t = Raise e -> e = ValueError.
Proof.
  unfold int_spec. destruct (split_sign (cstrip t)) as [neg body].
  destruct (numeral_ok body); congruence.
Qed.

(** Stock parsing gives the number of the text when it is a numeral and 0
    otherwise. *)
Lemma parse_stock_spec (stock_data : stock_field) :
  parse_stock_aproximado stock_data = Ok (stock_spec stock_data).
Proof.
  assert (Hgo : forall t,
            try_except (int_of_str t) [ValueError] (Ok 0)
            = Ok (match int_spec t with Ok z => z | Raise _ => 0 end)).
  { intro t. rewrite int_of_str_spec.
    destruct (int_spec t) as [z | e] eqn:H; [ reflexivity | ].
    apply int_spec_raises in H; subst; reflexivity. }
  unfold parse_stock_aproximado, stock_spec, stock_int_text.
  destruct stock_data as [a | v]; [ | destruct v ]; try reflexivity;
    match goal with
    | |- context [ startswith ?p ?t ] => destruct (startswith p t)
    end; apply Hgo.
Qed.

Lemma lookup_stock (http : http_outcome) :
  stock_pcf (result_of (check_product_api http)) = expected_stock http.
Proof.
  destruct http as [status_code [data | e msg] | e msg]; simpl.
  - destruct (resp_ok status_code).
    + now rewrite parse_stock_spec.
    + now destruct (status_code =? 404).
  - destruct (resp_ok status_code).
    + now destruct e.
    + now destruct (status_code =? 404).
  - now destruct e.
Qed.

Lemma lookup_status (http : http_outcome) :
  api_status (result_of (check_product_api http)) = expected_status http.
Proof.
  destruct http as [status_code [data | e msg] | e msg]; simpl.
  - destruct (resp_ok status_code).
    + now rewrite parse_stock_spec.
    + now destruct (status_code =? 404).
  - destruct (resp_ok status_code).
    + now destruct e.
    + now destruct (status_code =? 404).
  - now destruct e.
Qed.





End Numerals.

(** ** Stock parsing *)

Module Stock.

Import TextFacts.

(** *** [int()] raises nothing but [ValueError] *)

Lemma int_of_str_raises (s : str) (e : exn) :
  int_of_str s = Raise e -> e = ValueError.
Proof.
  unfold int_of_str. destruct (split_sign (cstrip s)) as [neg body].
  destruct (int_digits body) as [ [n count] | ].
  - destruct (int_max_str_digits <? count)%nat; congruence.
  - congruence.
Qed.

Lemma guarded_int_total (s : str) :
  exists z, try_except (int_of_str s) [ValueError] (Ok 0) = Ok z.
Proof.
  destruct (int_of_str s) as [z | e] eqn:H; simpl.
  - now exists z.
  - apply int_of_str_raises in H; subst; simpl. now exists 0.
Qed.

Lemma parse_stock_total (stock_data : stock_field) :
  exists z, parse_stock_aproximado stock_data = Ok z.
Proof.
  unfold parse_stock_aproximado.
  destruct stock_data as [a | v]; [ | destruct v ];
    try (now exists 0);
    match goal with
    | |- context [ startswith ?p ?t ] => destruct (startswith p t)
    end; apply guarded_int_total.
Qed.

(** *** Texts made of digits *)

Lemma digit_not_space (c : ascii) : is_digit c = true -> is_space c = false.
Proof. destruct c as [[] [] [] [] [] [] [] []]; intro H; (reflexivity || discriminate H). Qed.

Lemma digit_not_cspace (c : ascii) : is_digit c = true -> is_cspace c = false.
Proof. destruct c as [[] [] [] [] [] [] [] []]; intro H; (reflexivity || discriminate H). Qed.

Lemma digit_not_mark (c : ascii) :
  is_digit c = true ->
  ch_eqb c "_" = false /\ ch_eqb c "+" = false /\ ch_eqb c "-" = false.
Proof. destruct c as [[] [] [] [] [] [] [] []]; intro H; (now repeat split) || discriminate H. Qed.

Lemma rstrip_digits (ds : str) : all_digits ds = true -> rstrip ds = ds.
Proof.
  induction ds as [ | c ds IH ]; simpl; [ reflexivity | ].
  rewrite andb_true_iff; intros [Hc Hds]. rewrite (IH Hds).
  destruct ds; [ now rewrite (digit_not_space c Hc) | reflexivity ].
Qed.

Lemma crstrip_digits (ds : str) : all_digits ds = true -> crstrip ds = ds.
Proof.
  induction ds as [ | c ds IH ]; simpl; [ reflexivity | ].
  rewrite andb_true_iff; intros [Hc Hds]. rewrite (IH Hds).
  destruct ds; [ now rewrite (digit_not_cspace c Hc) | reflexivity ].
Qed.

Lemma strip_digits (ds : str) : all_digits ds = true -> strip ds = ds.
Proof.
  intro H; unfold strip. destruct ds as [ | c ds ]; [ reflexivity | ].
  simpl in H; apply andb_true_iff in H as [Hc Hds].
  simpl lstrip; rewrite (digit_not_space c Hc).
  apply rstrip_digits; simpl; now rewrite Hc, Hds.
Qed.

Lemma cstrip_digits (ds : str) : all_digits ds = true -> cstrip ds = ds.
Proof.
  intro H; unfold cstrip. destruct ds as [ | c ds ]; [ reflexivity | ].
  simpl in H; apply andb_true_iff in H as [Hc Hds].
  simpl clstrip; rewrite (digit_not_cspace c Hc).
  apply crstrip_digits; simpl; now rewrite Hc, Hds.
Qed.

Lemma strip_plus_digits (ds : str) :
  ds <> [] -> all_digits ds = true -> strip ("+"%char :: ds) = "+"%char :: ds.
Proof.
  intros Hne H; unfold strip; simpl.
  rewrite (rstrip_digits ds H). destruct ds; [ contradiction | reflexivity ].
Qed.

Lemma int_body_digits (ds : str) (acc : Z) (count : nat) :
  all_digits ds = true ->
  int_body acc count false ds =
  Some (fold_left (fun a c => 10 * a + digit_val c) ds acc,
        (count + List.length ds)%nat).
Proof.
  revert acc count; induction ds as [ | c ds IH ]; intros acc count; simpl.
  - intros _; now rewrite Nat.add_0_r.
  - rewrite andb_true_iff; intros [Hc Hds].
    destruct (digit_not_mark c Hc) as (-> & _ & _). rewrite Hc.
    rewrite (IH _ _ Hds). f_equal; f_equal; lia.
Qed.

Lemma int_of_str_digits (ds : str) :
  ds <> [] -> all_digits ds = true ->
  (List.length ds <= int_max_str_digits)%nat ->
  int_of_str ds = Ok (decimal ds).
Proof.
  intros Hne H Hlen. unfold int_of_str. rewrite (cstrip_digits ds H).
  destruct ds as [ | c ds ]; [ contradiction | ].
  pose proof H as H'. simpl in H'; apply andb_true_iff in H' as [Hc _].
  destruct (digit_not_mark c Hc) as (Hus & Hplus & Hminus).
  unfold split_sign; rewrite Hminus, Hplus.
  unfold int_digits; rewrite Hus, (int_body_digits _ 0 0%nat H).
  cbn [Nat.add]. apply Nat.ltb_ge in Hlen; rewrite Hlen. reflexivity.
Qed.

(** A numeral, with or without the ["+"] prefix, parses to its number,
    whether it comes as the scalar or in the record's field. *)
Lemma parse_stock_numeral (ds : str) :
  ds <> [] -> all_digits ds = true ->
  (List.length ds <= int_max_str_digits)%nat ->
  parse_stock_aproximado (StockVal (PyStr ("+"%char :: ds))) = Ok (decimal ds)
  /\ parse_stock_aproximado (StockDict (Some (PyStr ("+"%char :: ds))))
     = Ok (decimal ds)
  /\ parse_stock_aproximado (StockVal (PyStr ds)) = Ok (decimal ds)
  /\ parse_stock_aproximado (StockDict (Some (PyStr ds))) = Ok (decimal ds).
Proof.
  intros Hne H Hlen.
  pose proof (int_of_str_digits ds Hne H Hlen) as Hint.
  assert (Hplus : startswith (lit "+") ("+"%char :: ds) = true)
    by reflexivity.
  assert (Hplain : startswith (lit "+") ds = false).
  { destruct ds as [ | c ds' ]; [ contradiction | ].
    simpl in H; apply andb_true_iff in H as [Hc _]. revert Hc.
    clear; destruct c as [[] [] [] [] [] [] [] []]; intro Hc;
      (reflexivity || discriminate Hc). }
  unfold parse_stock_aproximado, stock_raw_of; cbn [py_str].
  rewrite (strip_plus_digits ds Hne H), (strip_digits ds H), Hplus, Hplain.
  cbn [tl]. rewrite Hint; cbn [try_except]. repeat split.
Qed.

(** An error outcome, and no other, carries the unknown stock. *)
Lemma unknown_stock_iff_error (http : http_outcome) :
  stock_pcf (result_of (check_product_api http)) = None <->
  api_status (result_of (check_product_api http)) = status_error.
Proof.
  destruct http as [status_code [data | e msg] | e msg]; simpl;
    try (destruct (resp_ok status_code));
    try (destruct (status_code =? 404));
    try (destruct (parse_stock_aproximado _));
    try (destruct e); simpl; split; (reflexivity || discriminate).
Qed.

(** C4. On a success outcome stock parsing always yields an integer: a
    numeral with the ["+"] prefix gives the number after the prefix
    ("+15" gives 15), a plain numeral its number ("7" gives 7), in the
    record's field or as the scalar itself, and an absent, empty or
    unparseable value gives 0: on every record and scalar the result is
    the number of the text when the text (trimmed, without the prefix) is
    a numeral, and 0 when it is not. The result of a lookup carries the
    parsed stock on a success, 0 on a 404 and the unknown stock ([None])
    on every failed request, and carries [None] exactly on an error
    outcome, never 0. *)
Theorem C4_stock_parsing :
  (forall stock_data, exists z, parse_stock_aproximado stock_data = Ok z)
  /\ (forall ds,
        ds <> [] -> all_digits ds = true ->
        (List.length ds <= int_max_str_digits)%nat ->
        parse_stock_aproximado (StockVal (PyStr ("+"%char :: ds)))
        = Ok (decimal ds)
        /\ parse_stock_aproximado (StockDict (Some (PyStr ("+"%char :: ds))))
           = Ok (decimal ds)
        /\ parse_stock_aproximado (StockVal (PyStr ds)) = Ok (decimal ds)
        /\ parse_stock_aproximado (StockDict (Some (PyStr ds)))
           = Ok (decimal ds))
  /\ parse_stock_aproximado (StockVal (PyStr (lit "+15"))) = Ok 15
  /\ parse_stock_aproximado (StockDict (Some (PyStr (lit "+15")))) = Ok 15
  /\ parse_stock_aproximado (StockVal (PyStr (lit "7"))) = Ok 7
  /\ parse_stock_aproximado (StockDict (Some (PyStr (lit "7")))) = Ok 7
  /\ parse_stock_aproximado (StockVal (PyNum (lit "7"))) = Ok 7
  /\ parse_stock_aproximado (StockVal PyNone) = Ok 0
  /\ parse_stock_aproximado (StockDict None) = Ok 0
  /\ parse_stock_aproximado (StockDict (Some PyNone)) = Ok 0
  /\ parse_stock_aproximado (StockVal (PyStr [])) = Ok 0
  /\ parse_stock_aproximado (StockDict (Some (PyStr []))) = Ok 0
  /\ parse_stock_aproximado (StockVal (PyStr (lit "mucho"))) = Ok 0
  /\ parse_stock_aproximado (StockDict (Some (PyStr (lit "+mucho")))) = Ok 0
  /\ (forall http,
        stock_pcf (result_of (check_product_api http)) = None <->
        api_status (result_of (check_product_api http)) = status_error)
  /\ (forall stock_data,
        parse_stock_aproximado stock_data = Ok (stock_spec stock_data))
  /\ (forall stock_data t neg body,
        stock_int_text stock_data = Some t ->
        split_sign (cstrip t) = (neg, body) ->
        numeral_ok body = false ->
        parse_stock_aproximado stock_data = Ok 0)
  /\ parse_stock_aproximado (StockVal (PyStr (lit "12abc"))) = Ok 0
  /\ parse_stock_aproximado (StockVal (PyStr (lit "7 unidades"))) = Ok 0
  /\ parse_stock_aproximado (StockDict (Some (PyStr (lit "+1 2")))) = Ok 0
  /\ parse_stock_aproximado (StockVal (PyStr (lit "3.5"))) = Ok 0
  /\ (forall http,
        stock_pcf (result_of (check_product_api http)) = expected_stock http)
  /\ (forall http,
        api_status (result_of (check_product_api http))
        = expected_status http)
  /\ result_of (check_product_api unavailable_reply)
     = error_result (lit "HTTP 503")
  /\ result_of (check_product_api timed_out_request)
     = error_result (lit "Read timed out.").
Proof.
  split; [ exact parse_stock_total | ].
  split; [ exact parse_stock_numeral | ].
  do 12 (split; [ vm_compute; reflexivity | ]).
  split; [ exact unknown_stock_iff_error | ].
  split; [ exact Numerals.parse_stock_spec | ].
  split.
  { intros stock_data t neg body Ht Hs Hok.
    rewrite Numerals.parse_stock_spec. unfold stock_spec, int_spec.
    now rewrite Ht, Hs, Hok. }
  do 4 (split; [ vm_compute; reflexivity | ]).
  split; [ exact Numerals.lookup_stock | ].
  split; [ exact Numerals.lookup_status | ].
  split; vm_compute; reflexivity.
Qed.

Lemma C4_witness :
  (parse_stock_aproximado (StockVal (PyStr ("+"%char :: lit "15")))
   = Ok (decimal (lit "15"))
   /\ parse_stock_aproximado (StockDict (Some (PyStr ("+"%char :: lit "15"))))
      = Ok (decimal (lit "15"))
   /\ parse_stock_aproximado (StockVal (PyStr (lit "15")))
      = Ok (decimal (lit "15"))
   /\ parse_stock_aproximado (StockDict (Some (PyStr (lit "15"))))
      = Ok (decimal (lit "15")))
  /\ parse_stock_aproximado (StockVal (PyStr (lit "15 aprox"))) = Ok 0.
Proof.
  destruct C4_stock_parsing
    as (_ & Hnum & _ & _ & _ & _ & _ & _ & _ & _ & _ & _ & _ & _ & _ & _
        & Hbad & _).
  split.
  - apply (Hnum (lit "15")).
    + discriminate.
    + reflexivity.
    + vm_compute; lia.
  - apply (Hbad (StockVal (PyStr (lit "15 aprox"))) (lit "15 aprox") false
             (lit "15 aprox")); reflexivity.
Defined.

(** *** The sign of the parsed stock *)

Lemma digit_val_nonneg (c : ascii) : is_digit c = true -> 0 <= digit_val c.
Proof.
  destruct c as [[] [] [] [] [] [] [] []]; intro H;
    (discriminate H || (vm_compute; discriminate)).
Qed.

Lemma int_body_nonneg (s : str) (acc : Z) (count : nat) (u : bool)
    (n : Z) (k : nat) :
  0 <= acc -> int_body acc count u s = Some (n, k) -> 0 <= n.
Proof.
  revert acc count u; induction s as [ | c s IH ]; intros acc count u Hacc;
    cbn [int_body].
  - destruct u; [ discriminate | ]. intro H; injection H as <- _; exact Hacc.
  - destruct (ch_eqb c "_").
    + destruct u; [ discriminate | ]. now apply IH.
    + destruct (is_digit c) eqn:Hc; [ | discriminate ].
      intro H. pose proof (digit_val_nonneg c Hc) as Hd.
      eapply (IH (10 * acc + digit_val c)); [ lia | exact H ].
Qed.

Lemma In_clstrip (c : ascii) (s : str) : In c (clstrip s) -> In c s.
Proof.
  induction s as [ | x s IH ]; simpl; [ tauto | ].
  destruct (is_cspace x); simpl; tauto.
Qed.

Lemma In_crstrip (c : ascii) (s : str) : In c (crstrip s) -> In c s.
Proof.
  induction s as [ | x s IH ]; simpl; [ tauto | ].
  destruct (crstrip s) as [ | y t ].
  - destruct (is_cspace x); simpl; tauto.
  - simpl in *; tauto.
Qed.

Lemma In_lstrip (c : ascii) (s : str) : In c (lstrip s) -> In c s.
Proof.
  induction s as [ | x s IH ]; simpl; [ tauto | ].
  destruct (is_space x); simpl; tauto.
Qed.

Lemma In_rstrip (c : ascii) (s : str) : In c (rstrip s) -> In c s.
Proof.
  induction s as [ | x s IH ]; simpl; [ tauto | ].
  destruct (rstrip s) as [ | y t ].
  - destruct (is_space x); simpl; tauto.
  - simpl in *; tauto.
Qed.

Lemma In_strip (c : ascii) (s : str) : In c (strip s) -> In c s.
Proof. intro H; now apply In_lstrip, In_rstrip. Qed.

Lemma In_tl (c : ascii) (s : str) : In c (tl s) -> In c s.
Proof. destruct s; simpl; tauto. Qed.

(** [int()] gives a negative number only for a text with a minus sign. *)
Lemma int_of_str_negative (s : str) (z : Z) :
  int_of_str s = Ok z -> z < 0 -> In "-"%char s.
Proof.
  unfold int_of_str, split_sign. intros H Hz.
  apply In_clstrip, In_crstrip. fold (cstrip s).
  destruct (cstrip s) as [ | c body ].
  - simpl in H; discriminate H.
  - destruct (ch_eqb c "-") eqn:Hc.
    + apply ch_eqb_eq in Hc; subst; now left.
    + exfalso.
      assert (Hpos : forall t, match int_digits t with
                               | Some (n, _) => 0 <= n
                               | None => True
                               end).
      { intro t; unfold int_digits. destruct t as [ | x t ]; [ exact I | ].
        destruct (ch_eqb x "_"); [ exact I | ].
        destruct (int_body 0 0 false (x :: t)) as [ [n k] | ] eqn:Hb;
          [ | exact I ].
        eapply int_body_nonneg; [ | exact Hb ]; lia. }
      destruct (ch_eqb c "+").
      * specialize (Hpos body). destruct (int_digits body) as [ [n k] | ];
          [ | discriminate H ].
        destruct (int_max_str_digits <? k)%nat; [ discriminate H | ].
        injection H as <-; lia.
      * specialize (Hpos (c :: body)).
        destruct (int_digits (c :: body)) as [ [n k] | ];
          [ | discriminate H ].
        destruct (int_max_str_digits <? k)%nat; [ discriminate H | ].
        injection H as <-; lia.
Qed.

Lemma guarded_int_sign (s : str) :
  ~ In "-"%char s ->
  exists z, try_except (int_of_str s) [ValueError] (Ok 0) = Ok z /\ 0 <= z.
Proof.
  intro Hs. destruct (guarded_int_total s) as [z Hz]. exists z; split;
    [ exact Hz | ].
  destruct (int_of_str s) as [n | e] eqn:Hn; simpl in Hz.
  - injection Hz as <-. destruct (Z.lt_ge_cases n 0) as [Hneg | Hpos];
      [ | exact Hpos ].
    exfalso; apply Hs; eapply int_of_str_negative; eauto.
  - apply int_of_str_raises in Hn; subst; simpl in Hz.
    injection Hz as <-; lia.
Qed.


Lemma digits_of_all (ds : str) : all_digits ds = true -> digits_of ds = ds.
Proof.
  unfold all_digits, digits_of; induction ds as [ | c ds IH ]; simpl;
    [ reflexivity | ].
  rewrite andb_true_iff; intros [-> Hds]. now rewrite IH.
Qed.





End Stock.

(** ** The batch lookup *)

Module Batch.

Import TextFacts.

Lemma flat_map_shift {A : Type} (f : nat -> list A) (l : list nat) :
  flat_map f (map S l) = flat_map (fun i => f (S i)) l.
Proof.
  induction l as [ | i l IH ]; simpl; [ reflexivity | now rewrite IH ].
Qed.

Lemma lookups_in_order (tasks : list (Z * row)) (https : list http_outcome) :
  List.length https = List.length tasks ->
  flat_map (lookup_at tasks https) (seq 0 (List.length tasks))
  = map (fun p => joined (fst p) (snd p)) (combine tasks https).
Proof.
  revert https; induction tasks as [ | [pid r] tasks IH ];
    intros [ | http https ] Hlen; try discriminate Hlen; [ reflexivity | ].
  injection Hlen as Hlen.
  cbn [List.length seq flat_map combine map].
  rewrite <- seq_shift, flat_map_shift, <- (IH https Hlen).
  reflexivity.
Qed.

(** Once the tasks are built the batch returns, with one result for each
    task whatever the requests did and in whatever order they completed. *)
Lemma one_result_per_task (rows : DataFrame) (tasks : list (Z * row))
    (https : list http_outcome) (completion : list nat) :
  batch_tasks rows = Ok tasks ->
  List.length https = List.length tasks ->
  Permutation completion (seq 0 (List.length tasks)) ->
  exists results,
    check_products_batch rows https completion = Ok results
    /\ Permutation results
         (map (fun p => joined (fst p) (snd p)) (combine tasks https))
    /\ Permutation (map item_row results) (map snd tasks)
    /\ List.length results = List.length tasks.
Proof.
  intros Ht Hlen Hperm. unfold check_products_batch; rewrite Ht; simpl.
  eexists; split; [ reflexivity | ].
  fold (lookup_at tasks https).
  assert (Hres : Permutation (flat_map (lookup_at tasks https) completion)
            (map (fun p => joined (fst p) (snd p)) (combine tasks https))).
  { rewrite <- (lookups_in_order tasks https Hlen).
    now apply Permutation_flat_map. }
  assert (Hrows : map item_row
                    (map (fun p => joined (fst p) (snd p))
                       (combine tasks https)) = map snd tasks).
  { rewrite map_map; cbn [joined item_row].
    clear -Hlen. revert https Hlen.
    induction tasks as [ | t tasks IH ]; intros [ | h https ] Hlen;
      try discriminate Hlen; [ reflexivity | ].
    simpl; f_equal; apply IH; now injection Hlen. }
  split; [ exact Hres | split ].
  - rewrite <- Hrows; now apply Permutation_map.
  - rewrite (Permutation_length Hres), length_map, length_combine. lia.
Qed.

(** A request that fails becomes the error result of its own task. *)
Lemma failure_is_captured (task : Z * row) (e : exn) (msg : str)
    (status_code : Z) :
  api (joined task (GetRaises e msg)) = error_result msg
  /\ api (joined task (Response status_code (JsonFails e msg)))
     = (if resp_ok status_code then error_result msg
        else if status_code =? 404 then not_found_result
        else error_result (lit "HTTP " ++ str_of_Z status_code)).
Proof.
  split; cbn; [ now destruct e | ].
  destruct (resp_ok status_code); [ now destruct e | ].
  now destruct (status_code =? 404).
Qed.

(** No row is skipped when every identifier converts as it stands. *)
Lemma tasks_of_convertible (rows : DataFrame) :
  Forall (fun r => exists z, convert (COL_PCF_ID r) = Ok z) rows ->
  exists tasks, batch_tasks rows = Ok tasks /\ map snd tasks = rows.
Proof.
  induction 1 as [ | r rows [z Hz] _ [tasks [IH Hrows]] ]; simpl.
  - now exists [].
  - unfold convert in Hz.
    destruct (py_float (COL_PCF_ID r)) as [f | e]; simpl in Hz;
      [ | discriminate Hz ].
    simpl; rewrite Hz; simpl. rewrite IH; simpl.
    eexists; split; [ reflexivity | simpl; now rewrite Hrows ].
Qed.

Lemma clstrip_idem (s : str) : clstrip (clstrip s) = clstrip s.
Proof.
  induction s as [ | c s IH ]; simpl; [ reflexivity | ].
  destruct (is_cspace c) eqn:Hc; [ exact IH | simpl; now rewrite Hc ].
Qed.

Lemma crstrip_idem (s : str) : crstrip (crstrip s) = crstrip s.
Proof.
  induction s as [ | c s IH ]; simpl; [ reflexivity | ].
  destruct (crstrip s) as [ | x t ] eqn:Hs.
  - destruct (is_cspace c) eqn:Hc; simpl; [ reflexivity | now rewrite Hc ].
  - change (crstrip (c :: x :: t)) with
      (match crstrip (x :: t) with
       | [] => if is_cspace c then [] else [c]
       | r' => c :: r'
       end).
    rewrite IH; reflexivity.
Qed.

Lemma clstrip_crstrip (s : str) :
  clstrip (crstrip (clstrip s)) = crstrip (clstrip s).
Proof.
  destruct (clstrip s) as [ | c t ] eqn:Hs; [ reflexivity | ].
  assert (Hc : is_cspace c = false).
  { clear -Hs. induction s as [ | x s IH ]; simpl in Hs; [ discriminate | ].
    destruct (is_cspace x) eqn:Hx; [ now apply IH | ].
    injection Hs as -> _; exact Hx. }
  cbn [crstrip]. destruct (crstrip t); rewrite ?Hc; cbn [clstrip];
    now rewrite Hc.
Qed.

Lemma cstrip_idem (s : str) : cstrip (cstrip s) = cstrip s.
Proof.
  unfold cstrip. now rewrite clstrip_crstrip, crstrip_idem.
Qed.

Lemma float_of_str_cstrip (s : str) :
  float_of_str (cstrip s) = float_of_str s.
Proof. unfold float_of_str; now rewrite cstrip_idem. Qed.

(** A valid text identifier converts as it stands when the trimming of
    [str.strip] and that of [float()] agree on it, that is when no
    character FS, GS, RS or US sits at either end. *)
Lemma valid_text_converts (s : str) :
  is_valid_pcf_id (PyStr s) = Ok true ->
  strip s = cstrip s ->
  exists z, convert (PyStr s) = Ok z.
Proof.
  intros Hv Hs. apply Identifier.is_valid_pcf_id_true in Hv.
  destruct Hv as (_ & _ & _ & z & Hz). exists z.
  unfold int_float in Hz; cbn [py_str] in Hz.
  unfold convert; cbn [py_float].
  now rewrite Hs, float_of_str_cstrip in Hz.
Qed.

Lemma no_task_no_result (https : list http_outcome) (completion : list nat) :
  flat_map (lookup_at [] https) completion = [].
Proof.
  induction completion as [ | i l IH ]; simpl; [ reflexivity | ].
  rewrite IH. unfold lookup_at. now destruct i.
Qed.

(** C7. The claim is that every row of the valid-identifier set gets
    exactly one lookup result, the conversion before submission never
    skipping one. Requests that fail are indeed captured per task
    ([one_result_per_task], [failure_is_captured]), but the conversion can
    skip a valid row: [is_valid_pcf_id] trims the text with [str.strip],
    which removes the characters FS..US, while [check_products_batch]
    converts the untrimmed cell with [float()], which does not. The row
    with identifier "123" followed by US is valid, lands in [has_pcf_id],
    and the batch returns no result for it. *)
Theorem C7_valid_row_skipped :
  is_valid_pcf_id (COL_PCF_ID us_padded_row) = Ok true
  /\ (exists st, apply_xlsx_filters [us_padded_row] = Ok st
                 /\ has_pcf_id st = [us_padded_row])
  /\ convert (COL_PCF_ID us_padded_row) = Raise ValueError
  /\ batch_tasks [us_padded_row] = Ok []
  /\ (forall https completion,
        check_products_batch [us_padded_row] https completion = Ok []).
Proof.
  split; [ vm_compute; reflexivity | ].
  split; [ eexists; split; vm_compute; reflexivity | ].
  split; [ vm_compute; reflexivity | ].
  split; [ vm_compute; reflexivity | ].
  intros https completion. unfold check_products_batch.
  change (batch_tasks [us_padded_row]) with (@Ok (list (Z * row)) []).
  cbn [bind]. f_equal. apply no_task_no_result.
Qed.

End Batch.

(** ** Input-source failures *)

Module Run.

(** X15. When the sheet cannot be read, and when no local price file is found,
    the run writes the empty dashboard and returns. *)
Lemma guarded_source_failures (sid : str) (skip : bool) (w : world) :
  (forall e, read_google_sheet w = Raise e ->
     main (mkArgs gsheet sid skip) w
     = {| written := [mayorista_html empty_stats empty_class
                        (lit "Error al leer Google Sheet")];
          exit := Ok tt |})
  /\ (find_latest_price_file w = None ->
      main (mkArgs local sid skip) w
      = {| written := [mayorista_html empty_stats empty_class
                         (lit "No encontrado")];
           exit := Ok tt |}).
Proof.
  split; [ intros e H | intro H ]; unfold main; cbn [source]; now rewrite H.
Qed.

(** A sheet that is read but holds an identifier that reads as an
    infinite float ends the run with [OverflowError] and no file. *)
Lemma infinite_identifier_aborts_run (sid : str) (skip : bool)
    (local_file : option str) (excel : res DataFrame)
    (https : list http_outcome) (completion : list nat) :
  main (mkArgs gsheet sid skip)
    (mkWorld (Ok [infinite_id_row]) local_file excel https
       completion)
  = {| written := []; exit := Raise OverflowError |}.
Proof. vm_compute; reflexivity. Qed.

(** C6. The claim is that every input-source failure ends in an empty
    dashboard and a clean exit. The run does so when the sheet cannot be
    read and when no local file is found ([guarded_source_failures]), but
    the local file is read outside any handler: when [read_price_file]
    raises on the file that was found, [main] raises with it and nothing
    has been written. *)
Theorem C6_unreadable_local_file_crashes :
  forall sid skip sheet price_file e https completion,
    main (mkArgs local sid skip)
      (mkWorld sheet (Some price_file) (Raise e) https completion)
    = {| written := []; exit := Raise e |}.
Proof. reflexivity. Qed.

End Run.

(** * Further properties *)

(** ** The row filters when they return *)

Module Filters.

Import TextFacts.

Lemma select_as_filter (l : DataFrame) (mask : list bool) :
  mapM is_valid_pcf_id (map COL_PCF_ID l) = Ok mask ->
  select mask l = filter id_valid l
  /\ select (map negb mask) l = filter id_invalid l.
Proof.
  unfold select, id_valid, id_invalid.
  revert mask; induction l as [ | r l IH ]; simpl; intros mask H.
  - injection H as <-; split; reflexivity.
  - destruct (is_valid_pcf_id (COL_PCF_ID r)) as [b | e]; simpl in H;
      [ | discriminate H ].
    destruct (mapM is_valid_pcf_id (map COL_PCF_ID l)) as [bs | e];
      simpl in H; [ | discriminate H ].
    injection H as <-. destruct (IH bs eq_refl) as [IH1 IH2].
    destruct b; simpl; rewrite IH1, IH2; split; reflexivity.
Qed.

(** X3. When the filters return, [has_pcf_id] holds, in sheet order, exactly
    the stocked rows outside clearance on which the identifier check
    answers valid, and [no_pcf_id] those on which it answers invalid. *)
Theorem identifier_split (df : DataFrame) (st : xlsx_stats) :
  apply_xlsx_filters df = Ok st ->
  has_pcf_id st = filter id_valid (eligible_xlsx_of df)
  /\ no_pcf_id st = filter id_invalid (eligible_xlsx_of df)
  /\ (forall r, In r (has_pcf_id st) <->
        In r df /\ stocked r = true /\ is_clearance r = false
        /\ is_valid_pcf_id (COL_PCF_ID r) = Ok true)
  /\ (forall r, In r (no_pcf_id st) <->
        In r df /\ stocked r = true /\ is_clearance r = false
        /\ is_valid_pcf_id (COL_PCF_ID r) = Ok false).
Proof.
  unfold apply_xlsx_filters.
  destruct (str_accessor _ _) as [ [] | e ]; cbn [bind]; [ | discriminate ].
  destruct (mapM is_valid_pcf_id (map COL_PCF_ID (eligible_xlsx_of df)))
    as [mask | e] eqn:Hm; simpl; [ | discriminate ].
  intro H; injection H as <-; cbn [has_pcf_id no_pcf_id].
  destruct (select_as_filter _ _ Hm) as [-> ->].
  split; [ reflexivity | split; [ reflexivity | ] ].
  assert (Hel : forall r, In r (eligible_xlsx_of df) <->
            In r df /\ stocked r = true /\ is_clearance r = false).
  { intro r. unfold eligible_xlsx_of, has_stock_of.
    rewrite !filter_In, negb_true_iff. tauto. }
  split; intro r; rewrite filter_In, Hel; unfold id_valid, id_invalid;
    destruct (is_valid_pcf_id (COL_PCF_ID r)) as [ [ | ] | e ];
    intuition congruence.
Qed.

Lemma identifier_split_witness :
  exists st, apply_xlsx_filters sample_frame = Ok st
             /\ has_pcf_id st = [untagged_row]
             /\ no_pcf_id st = [no_id_row].
Proof.
  destruct (apply_xlsx_filters sample_frame) as [st | e] eqn:H;
    [ | vm_compute in H; discriminate H ].
  exists st; split; [ reflexivity | ].
  destruct (identifier_split sample_frame st H) as (H1 & H2 & _).
  split; [ rewrite H1 | rewrite H2 ]; vm_compute; reflexivity.
Defined.

Lemma filters_partition_witness :
  exists st, apply_xlsx_filters sample_frame = Ok st
             /\ Permutation
                  (sin_stock_df st ++ clearance_products st
                   ++ has_pcf_id st ++ no_pcf_id st) sample_frame
             /\ total st = 4.
Proof.
  destruct (apply_xlsx_filters sample_frame) as [st | e] eqn:H;
    [ | vm_compute in H; discriminate H ].
  exists st; split; [ reflexivity | ].
  destruct (Normalizer.apply_xlsx_filters_partition sample_frame st H)
    as (H1 & _ & _ & _ & H5).
  split; [ exact H1 | exact H5 ].
Defined.

End Filters.

(** ** The identifier check *)

Module IdentifierCheck.

Import TextFacts.

Lemma float_of_str_raises (s : str) (e : exn) :
  float_of_str s = Raise e -> e = ValueError.
Proof.
  unfold float_of_str.
  destruct (drop_underscores _ _) as [u | ]; [ | congruence ].
  destruct (float_grammar u); congruence.
Qed.

(** X4. The identifier check raises nothing but [OverflowError], and raises
    it exactly on a present cell that is no sentinel and whose trimmed
    text reads as an infinite float. *)
Theorem is_valid_pcf_id_raises (val : pyval) (e : exn) :
  is_valid_pcf_id val = Raise e <->
  e = OverflowError
  /\ pd_isna val = false
  /\ ~ In (lower (strip (py_str val))) sentinels
  /\ exists neg, float_of_str (strip (py_str val)) = Ok (FInf neg).
Proof.
  unfold is_valid_pcf_id.
  destruct (pd_isna val); cbn [orb].
  { split; [ discriminate | intros (_ & H & _); discriminate H ]. }
  destruct (is_empty (strip (py_str val))) eqn:He.
  { apply is_empty_nil in He; rewrite He.
    split; [ discriminate | intros (_ & _ & _ & neg & H) ].
    vm_compute in H; discriminate H. }
  destruct (existsb (str_eqb (lower (strip (py_str val)))) sentinels) eqn:Hs.
  { apply existsb_str_eqb in Hs.
    split; [ discriminate | intros (_ & _ & H & _); contradiction ]. }
  assert (Hns : ~ In (lower (strip (py_str val))) sentinels).
  { intro H; apply existsb_str_eqb in H; congruence. }
  rewrite float_of_str_lower.
  destruct (float_of_str (strip (py_str val))) as [f | e'] eqn:Hf; simpl.
  - destruct f as [ | neg | neg m k ]; simpl.
    + split; [ discriminate | intros (_ & _ & _ & neg & H); discriminate H ].
    + split.
      * intro H; injection H as <-. repeat split; eauto.
      * intros (-> & _); reflexivity.
    + split; [ discriminate | intros (_ & _ & _ & neg' & H); discriminate H ].
  - apply float_of_str_raises in Hf; subst e'; simpl.
    split; [ discriminate | intros (_ & _ & _ & neg & H); discriminate H ].
Qed.

Lemma lstrip_idem (s : str) : lstrip (lstrip s) = lstrip s.
Proof.
  induction s as [ | c s IH ]; simpl; [ reflexivity | ].
  destruct (is_space c) eqn:Hc; [ exact IH | simpl; now rewrite Hc ].
Qed.

Lemma rstrip_idem (s : str) : rstrip (rstrip s) = rstrip s.
Proof.
  induction s as [ | c s IH ]; cbn [rstrip]; [ reflexivity | ].
  destruct (rstrip s) as [ | x t ] eqn:Hs.
  - destruct (is_space c) eqn:Hc; cbn [rstrip]; [ reflexivity | ].
    now rewrite Hc.
  - change (rstrip (c :: x :: t)) with
      (match rstrip (x :: t) with
       | [] => if is_space c then [] else [c]
       | r' => c :: r'
       end).
    rewrite IH; reflexivity.
Qed.

Lemma lstrip_rstrip (s : str) :
  lstrip (rstrip (lstrip s)) = rstrip (lstrip s).
Proof.
  destruct (lstrip s) as [ | c t ] eqn:Hs; [ reflexivity | ].
  assert (Hc : is_space c = false).
  { clear -Hs. induction s as [ | x s IH ]; simpl in Hs; [ discriminate | ].
    destruct (is_space x) eqn:Hx; [ now apply IH | ].
    injection Hs as -> _; exact Hx. }
  cbn [rstrip]. destruct (rstrip t); rewrite ?Hc; cbn [lstrip];
    now rewrite Hc.
Qed.

Lemma strip_idem (s : str) : strip (strip s) = strip s.
Proof. unfold strip. now rewrite lstrip_rstrip, rstrip_idem. Qed.

Lemma is_empty_lower (s : str) : is_empty (lower s) = is_empty s.
Proof. now destruct s. Qed.

(** X5. The identifier check does not depend on the case of a text cell nor
    on the whitespace around it. *)
Theorem is_valid_pcf_id_normalised (s : str) :
  is_valid_pcf_id (PyStr (lower s)) = is_valid_pcf_id (PyStr s)
  /\ is_valid_pcf_id (PyStr (strip s)) = is_valid_pcf_id (PyStr s).
Proof.
  unfold is_valid_pcf_id; cbn [pd_isna py_str orb]. split.
  - now rewrite strip_lower, is_empty_lower, lower_idem.
  - now rewrite strip_idem.
Qed.

End IdentifierCheck.

(** ** Short descriptions *)

Module ShortDescription.

Lemma lstrip_length (s : str) : (List.length (lstrip s) <= List.length s)%nat.
Proof.
  induction s as [ | c s IH ]; simpl; [ lia | ].
  destruct (is_space c); simpl; lia.
Qed.

Lemma rstrip_length (s : str) : (List.length (rstrip s) <= List.length s)%nat.
Proof.
  induction s as [ | c s IH ]; cbn [rstrip]; [ simpl; lia | ].
  destruct (rstrip s); [ destruct (is_space c) | ]; simpl in *; lia.
Qed.

Lemma strip_length (s : str) : (List.length (strip s) <= List.length s)%nat.
Proof.
  unfold strip. pose proof (rstrip_length (lstrip s)).
  pose proof (lstrip_length s). lia.
Qed.

Lemma sub_tags_from_length (s : str) (skip : nat) :
  (List.length (sub_tags_from skip s) <= List.length s)%nat.
Proof.
  revert skip; induction s as [ | c s IH ]; intro skip; simpl; [ lia | ].
  destruct skip as [ | k ].
  - destruct (ch_eqb c "<").
    + destruct (until_gt s) as [ [b a] | ].
      * destruct (is_empty b); simpl.
        -- specialize (IH 0%nat); lia.
        -- specialize (IH (S (List.length b))); lia.
      * simpl; specialize (IH 0%nat); lia.
    + simpl; specialize (IH 0%nat); lia.
  - specialize (IH k); lia.
Qed.

(** X6. Removing the markup and trimming never lengthen a text, so a
    description whose text has fewer than 20 characters is always empty. *)
Theorem short_description_is_empty (description : pyval) :
  (List.length (py_str description) < 20)%nat ->
  is_description_empty description = true.
Proof.
  intro Hlen. unfold is_description_empty.
  destruct (truthy description); [ cbn [negb] | reflexivity ].
  destruct (is_empty (strip (py_str description))); [ reflexivity | ].
  apply Z.ltb_lt. unfold len.
  pose proof (strip_length (sub_tags (strip (py_str description)))).
  pose proof (sub_tags_from_length (strip (py_str description)) 0).
  pose proof (strip_length (py_str description)).
  unfold sub_tags in *. lia.
Qed.

Lemma short_description_witness :
  is_description_empty (PyStr (lit "<b>Cable USB</b>")) = true.
Proof.
  apply (short_description_is_empty (PyStr (lit "<b>Cable USB</b>"))).
  vm_compute; lia.
Defined.

End ShortDescription.

(** ** From a reply to a bucket *)

Module Lookup.

Lemma not_found_iff_404 (http : http_outcome) :
  api_status (result_of (check_product_api http)) = status_not_found <->
  exists b, http = Response 404 b.
Proof.
  split.
  - destruct http as [status_code b | e msg]; simpl.
    + destruct (resp_ok status_code).
      * destruct b as [data | e msg]; simpl.
        -- destruct (parse_stock_aproximado _); simpl;
             [ discriminate | destruct e; discriminate ].
        -- destruct e; discriminate.
      * destruct (status_code =? 404) eqn:H404; simpl; [ | discriminate ].
        apply Z.eqb_eq in H404; subst. intros _; now exists b.
    + destruct e; discriminate.
  - intros [b ->]; reflexivity.
Qed.

Lemma ok_iff_object_reply (http : http_outcome) :
  api_status (result_of (check_product_api http)) = status_ok <->
  exists status_code data,
    http = Response status_code (JsonObject data)
    /\ resp_ok status_code = true.
Proof.
  split.
  - destruct http as [status_code b | e msg]; simpl.
    + destruct (resp_ok status_code) eqn:Hok.
      * destruct b as [data | e msg]; simpl.
        -- intros _; now exists status_code, data.
        -- destruct e; discriminate.
      * destruct (status_code =? 404); discriminate.
    + destruct e; discriminate.
  - intros (status_code & data & -> & Hok); simpl; rewrite Hok.
    destruct (Stock.parse_stock_total (get (p_stock data) (StockDict None)))
      as [z ->]. reflexivity.
Qed.

(** X7. The lookup reports not found for the status 404 and for nothing else,
    whatever the body of the reply; it succeeds exactly on a reply whose
    status is no 4xx or 5xx and whose body is a JSON object. Every other
    reply, and every exception of the request, gives the error result. *)
Theorem status_of_reply (http : http_outcome) :
  (api_status (result_of (check_product_api http)) = status_not_found <->
   exists b, http = Response 404 b)
  /\ (api_status (result_of (check_product_api http)) = status_ok <->
      exists status_code data,
        http = Response status_code (JsonObject data)
        /\ resp_ok status_code = true).
Proof.
  split; [ apply not_found_iff_404 | apply ok_iff_object_reply ].
Qed.

Lemma bucket_of_joined (task : Z * row) (http : http_outcome) :
  bucket_of (api (joined task http)) = reply_bucket http.
Proof.
  unfold joined, reply_bucket; cbn [api].
  destruct http as [status_code b | e msg]; simpl.
  - destruct (resp_ok status_code).
    + destruct b as [data | e msg]; simpl.
      * destruct (Stock.parse_stock_total
                    (get (p_stock data) (StockDict None))) as [z ->].
        unfold bucket_of; cbn.
        destruct (get (p_mayorista data) (PyBool false))
          as [ | | [ | ] | | | ]; cbn; try reflexivity;
          destruct z; cbn; try reflexivity;
          destruct (is_description_empty _); reflexivity.
      * destruct e; reflexivity.
    + destruct (status_code =? 404); reflexivity.
  - destruct e; reflexivity.
Qed.

(** X8. The bucket of a looked-up row is a function of the reply alone, with
    the defaults of the absent keys: 404 leads to [need_creation], any
    other failure to [api_errors], and an object reply to the decision on
    its visibility flag, its stock and its description. *)
Theorem reply_decides_bucket (task : Z * row) (http : http_outcome) :
  bucket_list (reply_bucket http) (classify_products [joined task http] [])
  = [Checked (joined task http)].
Proof.
  rewrite Classifier.classify_products_buckets.
  pose proof (bucket_of_joined task http) as Hb.
  unfold bucket_items; cbn [filter map app].
  destruct (reply_bucket http); rewrite Hb; reflexivity.
Qed.

End Lookup.

(** ** More on the batch lookup *)

Module BatchOrder.

Import TextFacts.

(** X9. The order in which the requests complete changes the order of the
    results and nothing else. *)
Theorem completion_order_is_irrelevant (rows : DataFrame)
    (https : list http_outcome) (c1 c2 : list nat) :
  Permutation c1 c2 ->
  same_results (check_products_batch rows https c1)
    (check_products_batch rows https c2).
Proof.
  intro Hperm. unfold check_products_batch, same_results.
  destruct (batch_tasks rows) as [tasks | e]; simpl; [ | reflexivity ].
  now apply Permutation_flat_map.
Qed.

Lemma completion_order_witness :
  same_results
    (check_products_batch [untagged_row; no_id_row; untagged_row]
       [Response 404 (JsonFails ValueError []); GetRaises RequestException []]
       [0%nat; 1%nat])
    (check_products_batch [untagged_row; no_id_row; untagged_row]
       [Response 404 (JsonFails ValueError []); GetRaises RequestException []]
       [1%nat; 0%nat]).
Proof.
  apply completion_order_is_irrelevant. apply perm_swap.
Defined.

Lemma batch_tasks_sound (rows : DataFrame) (tasks : list (Z * row)) :
  batch_tasks rows = Ok tasks ->
  Forall (fun t => In (snd t) rows /\ convert (COL_PCF_ID (snd t)) = Ok (fst t))
    tasks.
Proof.
  revert tasks; induction rows as [ | r rows IH ]; simpl; intros tasks H.
  - injection H as <-; constructor.
  - unfold convert.
    destruct (py_float (COL_PCF_ID r)) as [f | e] eqn:Hf; simpl in H.
    + destruct (int_of_float f) as [z | e] eqn:Hz; simpl in H.
      * destruct (batch_tasks rows) as [ts | e]; simpl in H;
          [ | discriminate H ].
        injection H as <-. constructor.
        -- simpl; rewrite Hf; simpl; rewrite Hz; auto.
        -- eapply Forall_impl; [ | exact (IH ts eq_refl) ].
           intros t [Hin Hc]; auto.
      * destruct e; simpl in H; try discriminate H;
          (destruct (batch_tasks rows) as [ts | e']; simpl in H;
           [ | discriminate H ]; injection H as <-;
           eapply Forall_impl; [ | exact (IH ts eq_refl) ];
           intros t [Hin Hc]; auto).
    + destruct e; simpl in H; try discriminate H;
        (destruct (batch_tasks rows) as [ts | e']; simpl in H;
         [ | discriminate H ]; injection H as <-;
         eapply Forall_impl; [ | exact (IH ts eq_refl) ];
         intros t [Hin Hc]; auto).
Qed.

(** X10. Every result of the batch belongs to a row of the frame: its
    identifier is the conversion of that row's own cell, and its lookup
    fields come from one of the requests. *)
Theorem results_keep_their_rows (rows : DataFrame)
    (https : list http_outcome) (completion : list nat)
    (results : list item) :
  check_products_batch rows https completion = Ok results ->
  Forall (fun it =>
            In (item_row it) rows
            /\ convert (COL_PCF_ID (item_row it)) = Ok (pcf_id it)
            /\ exists http, In http https
                            /\ api it = result_of (check_product_api http))
    results.
Proof.
  unfold check_products_batch.
  destruct (batch_tasks rows) as [tasks | e] eqn:Ht; simpl; [ | discriminate ].
  intro H; injection H as <-.
  pose proof (batch_tasks_sound rows tasks Ht) as Hs.
  rewrite Forall_forall in Hs. apply Forall_forall; intros it Hin.
  apply in_flat_map in Hin as [i [_ Hi]].
  destruct (nth_error tasks i) as [ [pid r] | ] eqn:Hti; [ | contradiction ].
  destruct (nth_error https i) as [http | ] eqn:Hhi; [ | contradiction ].
  destruct Hi as [<- | []]; cbn.
  apply nth_error_In in Hti, Hhi. destruct (Hs _ Hti) as [Hr Hc].
  repeat split; eauto.
Qed.

Lemma results_keep_their_rows_witness :
  Forall (fun it =>
            In (item_row it) [untagged_row]
            /\ convert (COL_PCF_ID (item_row it)) = Ok (pcf_id it)
            /\ exists http, In http [Response 404 (JsonFails ValueError [])]
                            /\ api it = result_of (check_product_api http))
    [joined (123, untagged_row) (Response 404 (JsonFails ValueError []))].
Proof.
  apply (results_keep_their_rows [untagged_row]
           [Response 404 (JsonFails ValueError [])] [0%nat]).
  vm_compute; reflexivity.
Defined.

End BatchOrder.

(** ** The batch does not abort on valid identifiers *)

Module BatchSafety.

Import TextFacts.

Lemma digit_float_char (c : ascii) : is_digit c = true -> float_char c = true.
Proof. unfold float_char; now intros ->. Qed.

Lemma take_digits_chars (s : str) (a n v k : Z) (r : str) :
  take_digits a n s = (v, k, r) -> Forall (fun c => float_char c = true) r -> Forall (fun c => float_char c = true) s.
Proof.
  revert a n; induction s as [ | c s IH ]; intros a n; simpl.
  - intro H; injection H as _ _ <-; auto.
  - destruct (is_digit c) eqn:Hc.
    + intros H Hr; constructor; [ now apply digit_float_char | eauto ].
    + intro H; injection H as _ _ <-; auto.
Qed.

Lemma split_sign_chars (s body : str) (neg : bool) :
  split_sign s = (neg, body) -> Forall (fun c => float_char c = true) body -> Forall (fun c => float_char c = true) s.
Proof.
  unfold split_sign; destruct s as [ | c r ].
  - intro H; injection H as _ <-; auto.
  - destruct (ch_eqb c "-") eqn:Hm.
    + apply ch_eqb_eq in Hm; subst. intro H; injection H as _ <-.
      now constructor.
    + destruct (ch_eqb c "+") eqn:Hp.
      * apply ch_eqb_eq in Hp; subst. intro H; injection H as _ <-.
        now constructor.
      * intro H; injection H as _ <-; auto.
Qed.

Lemma float_grammar_chars (u : str) (f : pyfloat) :
  float_grammar u = Some f -> Forall (fun c => float_char c = true) u.
Proof.
  unfold float_grammar.
  destruct (split_sign u) as [neg body] eqn:Hsign.
  intro H; apply (split_sign_chars _ _ _ Hsign); revert H.
  destruct (str_eqb body (lit "inf")) eqn:H1.
  { apply str_eqb_eq in H1; subst; intros _; repeat constructor. }
  destruct (str_eqb body (lit "infinity")) eqn:H2.
  { apply str_eqb_eq in H2; subst; intros _; repeat constructor. }
  cbn [orb].
  destruct (str_eqb body (lit "nan")) eqn:H3.
  { apply str_eqb_eq in H3; subst; intros _; repeat constructor. }
  destruct (take_digits 0 0 body) as [ [ip ni] r1 ] eqn:Hd1.
  intro H; apply (take_digits_chars _ _ _ _ _ _ Hd1); revert H.
  assert (Htail : forall m nf r2,
            (if ni + nf =? 0 then None
             else
               match r2 with
               | [] => Some (round_decimal neg m (- nf))
               | c :: r3 =>
                   if ch_eqb c "e" then
                     let '(eneg, r4) := split_sign r3 in
                     let '(ev, ne, r5) := take_digits 0 0 r4 in
                     if ne =? 0 then None
                     else
                       match r5 with
                       | [] => Some (round_decimal neg m
                                       ((if eneg then - ev else ev) - nf))
                       | _ :: _ => None
                       end
                   else None
               end) = Some f -> Forall (fun c => float_char c = true) r2).
  { intros m nf r2. destruct (ni + nf =? 0); [ discriminate | ].
    destruct r2 as [ | c r3 ]; [ constructor | ].
    destruct (ch_eqb c "e") eqn:He; [ | discriminate ].
    apply ch_eqb_eq in He; subst.
    destruct (split_sign r3) as [eneg r4] eqn:Hs2.
    destruct (take_digits 0 0 r4) as [ [ev ne] r5 ] eqn:Hd3.
    destruct (ne =? 0); [ discriminate | ].
    destruct r5; [ | discriminate ]. intros _.
    constructor; [ reflexivity | ].
    apply (split_sign_chars _ _ _ Hs2).
    apply (take_digits_chars _ _ _ _ _ _ Hd3). constructor. }
  destruct r1 as [ | c r ].
  - intros _; constructor.
  - destruct (ch_eqb c ".") eqn:Hdot.
    + apply ch_eqb_eq in Hdot; subst.
      destruct (take_digits ip 0 r) as [ [m nf] r2 ] eqn:Hd2.
      intro H. constructor; [ reflexivity | ].
      apply (take_digits_chars _ _ _ _ _ _ Hd2).
      exact (Htail m nf r2 H).
    + exact (Htail ip 0 (c :: r)).
Qed.

Lemma drop_underscores_chars (s w : str) (prev : ascii) :
  drop_underscores prev s = Some w -> Forall (fun c => float_char c = true) w ->
  Forall (fun c => float_char c = true \/ c = "_"%char) s.
Proof.
  revert prev w; induction s as [ | c s IH ]; intros prev w; simpl.
  - intros _ _; constructor.
  - destruct (ch_eqb c "_") eqn:Hus.
    + apply ch_eqb_eq in Hus; subst.
      destruct (is_digit prev); [ | discriminate ].
      intros H Hw; constructor; [ now right | eauto ].
    + destruct (ch_eqb prev "_" && negb (is_digit c)); [ discriminate | ].
      destruct (drop_underscores c s) as [w' | ] eqn:Hd; [ | discriminate ].
      simpl; intro H; injection H as <-. intro Hw.
      inversion Hw; subst. constructor; [ now left | eauto ].
Qed.

Lemma float_char_not_space (c : ascii) :
  float_char (to_lower c) = true \/ to_lower c = "_"%char ->
  is_space c = false.
Proof.
  destruct c as [[] [] [] [] [] [] [] []]; intros [H | H];
    (reflexivity || (vm_compute in H; discriminate H)).
Qed.

(** A text that [float()] accepts has no whitespace inside. *)
Lemma float_text_solid (s : str) (f : pyfloat) :
  float_of_str s = Ok f -> Forall (fun c => is_space c = false) (cstrip s).
Proof.
  unfold float_of_str.
  destruct (drop_underscores "000" (lower (cstrip s))) as [u | ] eqn:Hd;
    [ | discriminate ].
  destruct (float_grammar u) as [g | ] eqn:Hg; [ | discriminate ].
  intros _. pose proof (drop_underscores_chars _ _ _ Hd
                          (float_grammar_chars _ _ Hg)) as Hall.
  unfold lower in Hall; rewrite Forall_map in Hall.
  eapply Forall_impl; [ | exact Hall ].
  intros c Hc; now apply float_char_not_space.
Qed.

Lemma lstrip_clstrip (s : str) : lstrip (clstrip s) = lstrip s.
Proof.
  induction s as [ | c s IH ]; simpl; [ reflexivity | ].
  destruct (is_cspace c) eqn:Hc;
    [ now rewrite (is_cspace_is_space c Hc) | reflexivity ].
Qed.

Lemma rstrip_crstrip (s : str) : rstrip (crstrip s) = rstrip s.
Proof.
  induction s as [ | c s IH ]; [ reflexivity | ].
  cbn [crstrip]. destruct (crstrip s) as [ | x t ] eqn:Hs.
  - cbn [rstrip]. rewrite <- IH; cbn [rstrip].
    destruct (is_cspace c) eqn:Hc;
      [ now rewrite (is_cspace_is_space c Hc) | reflexivity ].
  - change (rstrip (c :: x :: t)) with
      (match rstrip (x :: t) with
       | [] => if is_space c then [] else [c]
       | r' => c :: r'
       end).
    rewrite IH; reflexivity.
Qed.

Lemma rstrip_solid (s : str) :
  Forall (fun c => is_space c = false) s -> rstrip s = s.
Proof.
  induction 1 as [ | c s Hc _ IH ]; [ reflexivity | ].
  cbn [rstrip]; rewrite IH. destruct s; [ now rewrite Hc | reflexivity ].
Qed.

Lemma crstrip_head (c : ascii) (s : str) :
  is_cspace c = false -> exists t, crstrip (c :: s) = c :: t.
Proof.
  intro Hc; cbn [crstrip]. destruct (crstrip s) as [ | x t ].
  - rewrite Hc; now exists [].
  - now exists (x :: t).
Qed.

(** On a text without whitespace inside, [str.strip] and the trimming of
    [float()] agree. *)
Lemma strip_solid (s : str) :
  Forall (fun c => is_space c = false) (cstrip s) -> strip s = cstrip s.
Proof.
  unfold strip, cstrip; intro Hall.
  rewrite <- lstrip_clstrip.
  assert (Hl : lstrip (clstrip s) = clstrip s).
  { destruct (clstrip s) as [ | c t ] eqn:Hs; [ reflexivity | ].
    assert (Hc : is_cspace c = false).
    { clear -Hs. induction s as [ | x s IH ]; simpl in Hs; [ discriminate | ].
      destruct (is_cspace x) eqn:Hx; [ now apply IH | ].
      injection Hs as -> _; exact Hx. }
    destruct (crstrip_head c t Hc) as [t' Ht']. rewrite Ht' in Hall.
    inversion Hall as [ | ? ? Hsp _ ]; subst. simpl; now rewrite Hsp. }
  rewrite Hl, <- rstrip_crstrip. now apply rstrip_solid.
Qed.

(** What [float()] accepts as it stands it accepts, with the same value,
    once trimmed by [str.strip]. *)
Lemma float_of_str_strip (s : str) (f : pyfloat) :
  float_of_str s = Ok f -> float_of_str (strip s) = Ok f.
Proof.
  intro H. rewrite (strip_solid s (float_text_solid s f H)).
  now rewrite Batch.float_of_str_cstrip.
Qed.

Lemma valid_cell_task (val : pyval) :
  is_valid_pcf_id val = Ok true ->
  exists conv,
    try_except
      (f <- py_float val ;; pcf_id_int <- int_of_float f ;;
       Ok (Some pcf_id_int))
      [ValueError; TypeError] (Ok None) = Ok conv.
Proof.
  intro Hv. apply Identifier.is_valid_pcf_id_true in Hv.
  destruct Hv as (Hna & _ & _ & z & Hz). unfold int_float in Hz.
  assert (Htext : forall s, py_str val = s -> py_float val = float_of_str s ->
            exists conv,
              try_except
                (f <- py_float val ;; pcf_id_int <- int_of_float f ;;
                 Ok (Some pcf_id_int))
                [ValueError; TypeError] (Ok None) = Ok conv).
  { intros s Hs Hf. rewrite Hf, Hs in *.
    destruct (float_of_str s) as [f | e] eqn:Hfs; simpl.
    - apply float_of_str_strip in Hfs. rewrite Hfs in Hz; simpl in Hz.
      rewrite Hz; simpl; eauto.
    - apply IdentifierCheck.float_of_str_raises in Hfs; subst; simpl; eauto. }
  destruct val as [ | | b | t | s | b t ]; simpl in Hna; try discriminate Hna.
  - destruct b; vm_compute; eauto.
  - now apply (Htext t).
  - now apply (Htext s).
  - simpl; eauto.
Qed.

(** X11. On rows that all pass the identifier check, the loop that
    converts the identifiers before any request is submitted never raises:
    [int(float(pcf_id))] succeeds or fails with an exception the loop
    catches, so the uncaught [OverflowError] cannot occur there. Every
    task it builds is a row of the frame with the conversion of its own
    cell. *)
Theorem valid_rows_never_abort (rows : DataFrame) :
  Forall (fun r => is_valid_pcf_id (COL_PCF_ID r) = Ok true) rows ->
  exists tasks,
    batch_tasks rows = Ok tasks
    /\ Forall (fun t => In (snd t) rows
                        /\ convert (COL_PCF_ID (snd t)) = Ok (fst t)) tasks.
Proof.
  intro Hall.
  assert (Ht : exists tasks, batch_tasks rows = Ok tasks).
  { induction Hall as [ | r rows Hr _ [tasks IH] ]; simpl; [ eauto | ].
    destruct (valid_cell_task _ Hr) as [conv ->]; simpl.
    rewrite IH; simpl; eauto. }
  destruct Ht as [tasks Ht]. exists tasks; split; [ exact Ht | ].
  now apply BatchOrder.batch_tasks_sound.
Qed.

Lemma valid_rows_witness :
  exists tasks,
    batch_tasks [untagged_row; us_padded_row] = Ok tasks
    /\ Forall (fun t => In (snd t) [untagged_row; us_padded_row]
                        /\ convert (COL_PCF_ID (snd t)) = Ok (fst t)) tasks.
Proof.
  apply valid_rows_never_abort.
  repeat constructor.
Defined.

End BatchSafety.

(** ** One result for every row *)

Module BatchComplete.

Lemma plain_valid_converts (r : row) :
  plain_valid_id r -> exists z, convert (COL_PCF_ID r) = Ok z.
Proof.
  intros (s & -> & Hv & Hs). now apply Batch.valid_text_converts.
Qed.

(** X12. When every identifier of the frame is a text that passes the check
    and that both trimmings read alike, no row is skipped: whenever the
    batch returns, with every submitted request completing once, it
    returns exactly one result for each row, whatever the requests did. *)
Theorem every_row_gets_one_result (rows : DataFrame)
    (https : list http_outcome) (completion : list nat)
    (results : list item) :
  Forall plain_valid_id rows ->
  List.length https = List.length rows ->
  Permutation completion (seq 0 (List.length rows)) ->
  check_products_batch rows https completion = Ok results ->
  Permutation (map item_row results) rows
  /\ List.length results = List.length rows.
Proof.
  intros Hall Hlen Hperm Hreturn.
  assert (Hconv : Forall (fun r => exists z, convert (COL_PCF_ID r) = Ok z)
                    rows).
  { eapply Forall_impl; [ | exact Hall ]. exact plain_valid_converts. }
  destruct (Batch.tasks_of_convertible rows Hconv) as (tasks & Ht & Hrows).
  assert (Hn : List.length tasks = List.length rows).
  { now rewrite <- Hrows, length_map. }
  rewrite <- Hn in Hlen, Hperm.
  destruct (Batch.one_result_per_task rows tasks https completion Ht Hlen Hperm)
    as (results' & Hres & _ & Hr & Hl).
  rewrite Hreturn in Hres; injection Hres as <-.
  rewrite Hrows in Hr. rewrite Hn in Hl. auto.
Qed.

Lemma every_row_witness :
  Permutation
    (map item_row
       [joined (123, untagged_row) (Response 503 (JsonFails ValueError []));
        joined (123, untagged_row) (GetRaises OtherException [])])
    [untagged_row; untagged_row]
  /\ List.length
       [joined (123, untagged_row) (Response 503 (JsonFails ValueError []));
        joined (123, untagged_row) (GetRaises OtherException [])]
     = 2%nat.
Proof.
  apply (every_row_gets_one_result [untagged_row; untagged_row]
           [GetRaises OtherException []; Response 503 (JsonFails ValueError [])]
           [1%nat; 0%nat]).
  - repeat constructor; exists (lit "123"); repeat split.
  - reflexivity.
  - apply perm_swap.
  - vm_compute; reflexivity.
Defined.

End BatchComplete.

(** ** The run as a whole *)

Module RunAccounts.

Lemma publish_unchecked_rows (rows : DataFrame) (ready : list entry) :
  publish_unchecked rows = Ok ready -> map entry_row ready = rows.
Proof.
  revert ready; induction rows as [ | r rows IH ]; simpl; intros ready H.
  - injection H as <-; reflexivity.
  - destruct (if pd_notna (COL_PCF_ID r) then _ else _) as [pid | e];
      simpl in H; [ | discriminate H ].
    destruct (publish_unchecked rows) as [es | e]; simpl in H;
      [ | discriminate H ].
    injection H as <-; simpl; f_equal; now apply IH.
Qed.

(** X13. Without the catalog (the flag to skip it, or no row with a valid
    identifier) a run that classifies puts every valid-identifier row in
    [publish_ready] and every other eligible row in [need_creation], in
    sheet order, and leaves the other buckets empty. *)
Theorem without_catalog (a : args_t) (w : world) (st : xlsx_stats)
    (c : classification) :
  skip_api a = true \/ has_pcf_id st = [] ->
  classify_run a w st = Ok c ->
  map entry_row (publish_ready c) = has_pcf_id st
  /\ need_creation c = map (Unchecked None) (no_pcf_id st)
  /\ missing_ficha c = []
  /\ already_mayorista c = []
  /\ has_pcf_stock c = []
  /\ api_errors c = []
  /\ total_eligible c = len (has_pcf_id st) + len (no_pcf_id st).
Proof.
  intros Hcase. unfold classify_run.
  assert (Hif : negb (skip_api a) && (0 <? len (has_pcf_id st)) = false).
  { destruct Hcase as [-> | ->]; [ reflexivity | ].
    now rewrite andb_false_r. }
  rewrite Hif.
  destruct (publish_unchecked (has_pcf_id st)) as [ready | e] eqn:Hp; simpl;
    [ | discriminate ].
  intro H; injection H as <-; cbn.
  pose proof (publish_unchecked_rows _ _ Hp) as Hrows.
  repeat split; try assumption.
  unfold total_eligible, len; cbn.
  rewrite <- Hrows, !length_map. lia.
Qed.

Lemma without_catalog_witness :
  exists c,
    classify_run (mkArgs gsheet [] true) sample_world one_row_stats = Ok c
    /\ map entry_row (publish_ready c) = [untagged_row]
    /\ need_creation c = [].
Proof.
  destruct (classify_run (mkArgs gsheet [] true) sample_world one_row_stats)
    as [c | e] eqn:H; [ | vm_compute in H; discriminate H ].
  exists c; split; [ reflexivity | ].
  destruct (without_catalog (mkArgs gsheet [] true) sample_world
              one_row_stats c (or_introl eq_refl) H) as (H1 & H2 & _).
  split; [ exact H1 | exact H2 ].
Defined.

Lemma stats_counts (df : DataFrame) (st : xlsx_stats) :
  apply_xlsx_filters df = Ok st ->
  total st = sin_stock_ingram st + clearance st
             + len (has_pcf_id st) + len (no_pcf_id st)
  /\ total st - sin_stock_ingram st = len (has_stock st)
  /\ total st - sin_stock_ingram st - clearance st = len (eligible_xlsx st)
  /\ len (eligible_xlsx st) = len (has_pcf_id st) + len (no_pcf_id st)
  /\ 0 <= sin_stock_ingram st
  /\ 0 <= clearance st.
Proof.
  unfold apply_xlsx_filters.
  destruct (str_accessor _ _) as [ [] | e ]; cbn [bind]; [ | discriminate ].
  destruct (mapM is_valid_pcf_id (map COL_PCF_ID (eligible_xlsx_of df)))
    as [mask | e] eqn:Hm; simpl; [ | discriminate ].
  intro H; injection H as <-; cbn.
  apply Normalizer.mapM_length in Hm; rewrite length_map in Hm.
  pose proof (Permutation_length
                (Normalizer.select_split mask (eligible_xlsx_of df) Hm)) as H1.
  pose proof (Permutation_length (Normalizer.clearance_split df)) as H2.
  pose proof (Permutation_length (Normalizer.stock_split df)) as H3.
  rewrite !length_app in *. unfold len. lia.
Qed.

Lemma classified_count (api_results : list item) (df_no_pcf_id : DataFrame) :
  classified (classify_products api_results df_no_pcf_id)
  = len api_results + len df_no_pcf_id.
Proof.
  rewrite Classifier.classify_products_buckets.
  pose proof (Classifier.buckets_count api_results) as H.
  unfold classified, len; cbn. rewrite length_app, length_map. lia.
Qed.

(** X14. A run that classifies accounts for every row of the sheet: when every
    valid identifier converts as it stands and every request completes
    once, the rows without stock, the clearance rows and the entries of
    the six buckets add up to the number of rows. *)
Theorem run_accounts_for_every_row (df : DataFrame) (st : xlsx_stats)
    (a : args_t) (w : world) (c : classification) :
  apply_xlsx_filters df = Ok st ->
  classify_run a w st = Ok c ->
  Forall (fun r => exists z, convert (COL_PCF_ID r) = Ok z) (has_pcf_id st) ->
  List.length (https w) = List.length (has_pcf_id st) ->
  Permutation (completion w) (seq 0 (List.length (has_pcf_id st))) ->
  total st = sin_stock_ingram st + clearance st + classified c.
Proof.
  intros Hst Hc Hconv Hlen Hperm.
  destruct (stats_counts df st Hst) as (Htotal & _).
  enough (classified c = len (has_pcf_id st) + len (no_pcf_id st)) by lia.
  unfold classify_run in Hc.
  destruct (negb (skip_api a) && (0 <? len (has_pcf_id st))).
  - destruct (Batch.tasks_of_convertible _ Hconv) as (tasks & Ht & Hrows).
    assert (Hn : List.length tasks = List.length (has_pcf_id st)).
    { now rewrite <- Hrows, length_map. }
    rewrite <- Hn in Hlen, Hperm.
    destruct (Batch.one_result_per_task _ tasks _ _ Ht Hlen Hperm)
      as (results & Hres & _ & _ & Hl).
    rewrite Hres in Hc; simpl in Hc. injection Hc as <-.
    rewrite classified_count. unfold len. lia.
  - destruct (publish_unchecked (has_pcf_id st)) as [ready | e] eqn:Hp;
      simpl in Hc; [ | discriminate Hc ].
    injection Hc as <-.
    pose proof (publish_unchecked_rows _ _ Hp) as Hrows.
    unfold classified, len; cbn.
    rewrite <- Hrows, !length_map. lia.
Qed.

Lemma run_accounts_witness :
  exists st c,
    apply_xlsx_filters sample_frame = Ok st
    /\ classify_run sample_args sample_world st = Ok c
    /\ total st = sin_stock_ingram st + clearance st + classified c.
Proof.
  destruct (apply_xlsx_filters sample_frame) as [st | e] eqn:Hst;
    [ | vm_compute in Hst; discriminate Hst ].
  assert (Hid : has_pcf_id st = [untagged_row]).
  { vm_compute in Hst. injection Hst as <-. reflexivity. }
  destruct (classify_run sample_args sample_world st) as [c | e] eqn:Hc.
  - exists st, c. split; [ reflexivity | split; [ exact Hc | ] ].
    apply (run_accounts_for_every_row sample_frame st sample_args
             sample_world c Hst Hc); rewrite Hid.
    + repeat constructor. exists 123. reflexivity.
    + reflexivity.
    + apply Permutation_refl.
  - exfalso. vm_compute in Hst. injection Hst as <-.
    vm_compute in Hc. discriminate Hc.
Defined.

End RunAccounts.

(** ** Guarded source failures *)

Module RunGuards.

Lemma guarded_failures_witness :
  main (mkArgs gsheet (lit "1mgGjhEm") false)
    (mkWorld (Raise RequestException) None (Raise OtherException) [] [])
  = {| written := [mayorista_html empty_stats empty_class
                     (lit "Error al leer Google Sheet")];
       exit := Ok tt |}
  /\ main (mkArgs local (lit "1mgGjhEm") false)
       (mkWorld (Ok sample_frame) None (Raise OtherException) [] [])
     = {| written := [mayorista_html empty_stats empty_class
                        (lit "No encontrado")];
          exit := Ok tt |}.
Proof.
  split.
  - apply (proj1 (Run.guarded_source_failures (lit "1mgGjhEm") false
                    (mkWorld (Raise RequestException) None
                       (Raise OtherException) [] [])) RequestException).
    reflexivity.
  - apply (proj2 (Run.guarded_source_failures (lit "1mgGjhEm") false
                    (mkWorld (Ok sample_frame) None
                       (Raise OtherException) [] []))).
    reflexivity.
Defined.

End RunGuards.

(** ** The latest price file *)

Module Latest.

Lemma max_by_mtime_spec (files : list (str * Z)) (best : str * Z) :
  (max_by_mtime best files = best
   /\ Forall (fun f => snd f <= snd best) files)
  \/ (exists before after,
        files = before ++ max_by_mtime best files :: after
        /\ snd best < snd (max_by_mtime best files)
        /\ Forall (fun f => snd f < snd (max_by_mtime best files)) before
        /\ Forall (fun f => snd f <= snd (max_by_mtime best files)) after).
Proof.
  revert best; induction files as [ | f files IH ]; intro best; simpl.
  - left; split; [ reflexivity | constructor ].
  - destruct (Z.ltb_spec (snd best) (snd f)) as [Hlt | Hge].
    + right. destruct (IH f) as [ [Hm Hall] | (b & a & Hf & Hb & Hbs & Has) ].
      * exists [], files. rewrite Hm. repeat split; auto.
      * exists (f :: b), a. repeat split; auto.
        -- simpl; f_equal; exact Hf.
        -- lia.
    + destruct (IH best) as [ [Hm Hall] | (b & a & Hf & Hb & Hbs & Has) ].
      * left; rewrite Hm; split; [ reflexivity | now constructor ].
      * right. exists (f :: b), a. repeat split; auto.
        -- simpl; f_equal; exact Hf.
        -- constructor; [ lia | exact Hbs ].
Qed.

(** X16. [find_latest_price_file] finds no file exactly when the glob matched
    none; otherwise it picks a matched path whose file is at least as
    recent as every other, the first such one in the order of the glob. *)
Theorem latest_price_file (files : list (str * Z)) :
  (find_latest_price_file_in files = None <-> files = [])
  /\ (forall path, find_latest_price_file_in files = Some path ->
        exists mtime before after,
          files = before ++ (path, mtime) :: after
          /\ Forall (fun f => snd f < mtime) before
          /\ Forall (fun f => snd f <= mtime) after).
Proof.
  split.
  - destruct files; simpl; split; (reflexivity || discriminate).
  - intros path H. destruct files as [ | f files ]; [ discriminate H | ].
    simpl in H; injection H as <-.
    destruct (max_by_mtime_spec files f)
      as [ [Hm Hall] | (b & a & Hf & Hb & Hbs & Has) ].
    + rewrite Hm. exists (snd f), [], files. destruct f; simpl in *; auto.
    + destruct (max_by_mtime f files) as [p t] eqn:Hmax; simpl in *.
      exists t, (f :: b), a. repeat split; auto.
      simpl; f_equal; exact Hf.
Qed.

Lemma latest_price_file_witness :
  exists mtime before after,
    [(lit "mayorista/CLPriceFile_a.xlsx", 100);
     (lit "mayorista/CLPriceFile_b.xlsx", 250);
     (lit "mayorista/CLPriceFile_c.xlsx", 250)]
    = before ++ (lit "mayorista/CLPriceFile_b.xlsx", mtime) :: after
    /\ Forall (fun f => snd f < mtime) before
    /\ Forall (fun f => snd f <= mtime) after.
Proof.
  apply (proj2 (latest_price_file
                  [(lit "mayorista/CLPriceFile_a.xlsx", 100);
                   (lit "mayorista/CLPriceFile_b.xlsx", 250);
                   (lit "mayorista/CLPriceFile_c.xlsx", 250)])).
  reflexivity.
Defined.

End Latest.

(** ** The figures of the report *)

Module Report.

(** X17. On the result of the filters, the funnel's subtractions are the
    sizes of the frames they stand for: the stocked rows, and the rows
    that reached the identifier stage, which split into those with and
    those without a valid identifier. *)
Theorem funnel_counts_frames (df : DataFrame) (st : xlsx_stats) :
  apply_xlsx_filters df = Ok st ->
  with_stock (report_of st) = len (has_stock st)
  /\ after_clearance (report_of st) = len (eligible_xlsx st)
  /\ after_clearance (report_of st)
     = len (has_pcf_id st) + len (no_pcf_id st)
  /\ 0 <= after_clearance (report_of st) <= with_stock (report_of st)
  /\ with_stock (report_of st) <= r_total (report_of st).
Proof.
  intro H.
  destruct (RunAccounts.stats_counts df st H)
    as (H1 & H2 & H3 & H4 & H5 & H6).
  unfold after_clearance, with_stock, report_of; cbn.
  unfold len in *. lia.
Qed.

Lemma funnel_counts_witness :
  exists st, apply_xlsx_filters sample_frame = Ok st
             /\ with_stock (report_of st) = 3
             /\ after_clearance (report_of st) = 2.
Proof.
  destruct (apply_xlsx_filters sample_frame) as [st | e] eqn:H;
    [ | vm_compute in H; discriminate H ].
  exists st; split; [ reflexivity | ].
  destruct (funnel_counts_frames sample_frame st H) as (H1 & H2 & _).
  rewrite H1, H2. vm_compute in H. injection H as <-. split; reflexivity.
Defined.

(** X18. The banner is critical exactly when the three eligible buckets are
    all empty, and healthy exactly when they hold more than 100 entries
    together. *)
Theorem status_thresholds (c : classification) :
  (status_class c = critical <->
     publish_ready c = [] /\ missing_ficha c = [] /\ need_creation c = [])
  /\ (status_class c = healthy <-> 100 < total_eligible c)
  /\ (status_class c = warning <-> 0 < total_eligible c <= 100).
Proof.
  assert (Hz : total_eligible c = 0 <->
            publish_ready c = [] /\ missing_ficha c = []
            /\ need_creation c = []).
  { unfold total_eligible, len.
    destruct (publish_ready c), (missing_ficha c), (need_creation c);
      simpl List.length; split; intro H; try lia; try congruence; auto;
      destruct H as (H1 & H2 & H3); congruence. }
  assert (Hn : 0 <= total_eligible c) by (unfold total_eligible, len; lia).
  rewrite <- Hz. unfold status_class.
  destruct (Z.ltb_spec 100 (total_eligible c));
    [ | destruct (Z.ltb_spec 0 (total_eligible c)) ];
    repeat split; intros; try discriminate; try reflexivity; lia.
Qed.

(** X19. A description cell shows at most 63 characters: the text itself when
    it has at most 60, else its first 60 and an ellipsis. *)
Theorem desc_cell_bounded (desc : str) :
  (List.length (desc_cell desc) <= 63)%nat
  /\ firstn 60 (desc_cell desc) = firstn 60 desc
  /\ ((List.length desc <= 60)%nat -> desc_cell desc = desc)
  /\ ((60 < List.length desc)%nat ->
      desc_cell desc = firstn 60 desc ++ lit "...").
Proof.
  unfold desc_cell, len.
  destruct (Z.ltb_spec 60 (Z.of_nat (List.length desc))) as [Hlong | Hshort].
  - assert (Hl : List.length (firstn 60 desc) = 60%nat)
      by (rewrite length_firstn; lia).
    split; [ | split; [ | split ] ].
    + rewrite length_app, Hl. change (List.length (lit "...")) with 3%nat. lia.
    + rewrite firstn_app, Hl, Nat.sub_diag, firstn_O, app_nil_r.
      rewrite firstn_firstn, Nat.min_id. reflexivity.
    + intro; lia.
    + intros _; reflexivity.
  - rewrite app_nil_r.
    assert (Hall : firstn 60 desc = desc) by (apply firstn_all2; lia).
    split; [ | split; [ | split ] ].
    + rewrite Hall; lia.
    + now rewrite Hall.
    + intros _; exact Hall.
    + intro; lia.
Qed.

Lemma desc_cell_witness :
  desc_cell (lit "USB cable") = lit "USB cable".
Proof.
  apply (proj1 (proj2 (proj2 (desc_cell_bounded (lit "USB cable"))))).
  vm_compute; lia.
Defined.

End Report.
